(** * Rolling z-score anomaly detection over a data stream

    A shallow embedding of [project.py]: the incremental statistics of
    [update_mean_std] and the loop of [detect_and_visualize_anomalies]
    (window maintenance, z-score, classification, seeding), followed by the
    properties of the detector.

    Numbers are IEEE 754 binary64 values, as Python's [float] and numpy's
    [float64] are: the specification type [spec_float] of the Standard
    Library at precision 53 and maximal exponent 1024, whose operations round
    to nearest even and compute inside Rocq.  Python integers that meet a
    float ([window_size], the literal [0]) are converted as Python converts
    them.

    The arithmetic is that of numpy's [float64] scalars, which is what the
    detector computes with: the statistics are [float64] from the first
    seeding on, and every operation that involves one gives one.  On these,
    an overflow gives an infinity and an invalid operation a NaN, with a
    warning and without an exception.  (On plain Python floats [x ** 2]
    raises [OverflowError] where this arithmetic gives an infinity; no
    square of the detector is taken on a plain Python float.)  The window
    size is the length of a window held in memory, and so within the range
    of a machine index. *)

From Stdlib Require Import ZArith List Bool Lia SpecFloat.
Import ListNotations.
Local Open Scope Z_scope.

(** ** Binary64 arithmetic *)

Module F64.

Definition float := spec_float.

Definition prec : Z := 53.
Definition emax : Z := 1024.

(** [float(z)] for a Python integer [z]: the nearest binary64 value.  (For
    an integer beyond the range of binary64, which gives an infinity here,
    Python raises [OverflowError]; the integers converted are lengths of
    windows, far inside the range.) *)
Definition of_Z (z : Z) : float := binary_normalize prec emax z 0 false.

Definition zero : float := S754_zero false.
Definition nan : float := S754_nan.
Definition infinity : float := S754_infinity false.

Definition add : float -> float -> float := SFadd prec emax.
Definition sub : float -> float -> float := SFsub prec emax.
Definition mul : float -> float -> float := SFmul prec emax.
Definition div : float -> float -> float := SFdiv prec emax.
Definition sqrt : float -> float := SFsqrt prec emax.
Definition abs : float -> float := SFabs.

(** [x ** 2], taken as the correctly rounded square.  The C library's
    [pow], through which the scalar power goes, returns this value when the
    square is representable and may differ from it in the last place
    otherwise; the theorems that are not about one computed run use of it
    only that the square of NaN is NaN. *)
Definition sqr (x : float) : float := mul x x.

(** Comparisons; each one is false as soon as an operand is NaN, except
    [neb] (Python's [!=]), which is then true. *)
Definition eqb : float -> float -> bool := SFeqb.
Definition ltb : float -> float -> bool := SFltb.
Definition leb : float -> float -> bool := SFleb.
Definition gtb (x y : float) : bool := ltb y x.
Definition geb (x y : float) : bool := leb y x.
Definition neb (x y : float) : bool := negb (eqb x y).

Definition is_nan (x : float) : bool :=
  match x with S754_nan => true | _ => false end.

(** Python's [max(a, b)]: [a] unless [b > a]. *)
Definition py_max (a b : float) : float := if gtb b a then b else a.

End F64.

Import F64.

Declare Scope f64_scope.
Delimit Scope f64_scope with f64.
Infix "+" := add : f64_scope.
Infix "-" := sub : f64_scope.
Infix "*" := mul : f64_scope.
Infix "/" := div : f64_scope.
Infix "<?" := ltb : f64_scope.
Infix ">?" := gtb : f64_scope.
Infix "=?" := eqb : f64_scope.
Infix "!=?" := neb (at level 70) : f64_scope.

(** ** Python exceptions *)

Inductive exn : Set :=
| ValueError
| IndexError
| ZeroDivisionError.

Inductive result (A : Type) : Type :=
| Ok (a : A)
| Raise (e : exn).

Arguments Ok {A} a.
Arguments Raise {A} e.

Definition bind {A B : Type} (r : result A) (k : A -> result B) : result B :=
  match r with
  | Ok a => k a
  | Raise e => Raise e
  end.

Notation "x <- r ;; k" := (bind r (fun x => k))
  (at level 61, r at next level, right associativity).
Notation "' p <- r ;; k" := (bind r (fun x => let 'p := x in k))
  (at level 61, p pattern, r at next level, right associativity).

(** [x / n] with [n] a Python integer: zero raises, as Python's float
    division does (a numpy scalar warns and returns an infinity or NaN
    there; the divisor is the window size, which the theorems take to be at
    least 1); otherwise [n] is converted and the quotient rounded. *)
Definition truediv_int (x : float) (n : Z) : result float :=
  if n =? 0 then Raise ZeroDivisionError else Ok (x / of_Z n)%f64.

(** [x / y] between floats, a zero divisor raising likewise.  (numpy's
    scalars only warn there and return an infinity or NaN; the stricter
    reading is the one modelled, so that the absence of a division by zero
    is a property of the code and not of the number type.) *)
Definition truediv (x y : float) : result float :=
  if (y =? zero)%f64 then Raise ZeroDivisionError else Ok (x / y)%f64.

(** ** [update_mean_std] *)

Section Update.

Variables prev_mean prev_std new_data old_data : float.
Variable window_size : Z.

(** Line 34: the mean after [old_data] left and [new_data] entered. *)
Definition updated_mean : result float :=
  q <- truediv_int (new_data - old_data)%f64 window_size ;;
  Ok (prev_mean + q)%f64.

(** Line 37: the variance as the update computes it, before the guard. *)
Definition updated_variance (new_mean : float) : result float :=
  truediv_int
    (sqr prev_std * of_Z (window_size - 1)
     - sqr (old_data - prev_mean) + sqr (new_data - new_mean))%f64
    window_size.

(** Lines 40-41: [if new_variance < 0: new_variance = 0]. *)
Definition clamp_variance (new_variance : float) : float :=
  if (new_variance <? zero)%f64 then zero else new_variance.

Definition update_mean_std : result (float * float) :=
  new_mean <- updated_mean ;;
  new_variance <- updated_variance new_mean ;;
  let new_variance := clamp_variance new_variance in
  let new_std := sqrt new_variance in
  Ok (new_mean, new_std).

End Update.

(** ** numpy's [mean] and [std] over the window

    [np.mean] sums the elements and divides by their number; [np.std]
    (population form, [ddof = 0]) subtracts that mean from every element,
    multiplies each difference by itself, and takes the root of the mean of
    the products.  numpy divides without raising.

    The sums are numpy's [add.reduce] over a contiguous array of [float64]:
    the result starts at the identity [0.0] and the pairwise sum of the
    array is added to it.  The pairwise sum adds fewer than 8 elements in
    sequence; up to 128 elements it keeps eight accumulators, the [j]-th
    one summing the elements at the positions [j], [8 + j], [16 + j], ... of
    the full blocks of eight, combines them as a balanced tree and adds the
    remaining elements in sequence; a longer array is cut in two, the first
    part of half the length rounded down to a multiple of 8, and the sums of
    the two parts are added. *)

(** [r[j] += a[i + j]] for the eight accumulators. *)
Fixpoint add_each (r block : list float) : list float :=
  match r, block with
  | x :: r', y :: block' => (x + y)%f64 :: add_each r' block'
  | _, _ => r
  end.

(** The loop over the full blocks of eight that follow the first one: the
    accumulators and the elements not yet read. *)
Fixpoint accumulate (blocks : nat) (r a : list float)
  : list float * list float :=
  match blocks with
  | O => (r, a)
  | S k => accumulate k (add_each r (firstn 8 a)) (skipn 8 a)
  end.

(** [((r[0] + r[1]) + (r[2] + r[3])) + ((r[4] + r[5]) + (r[6] + r[7]))]. *)
Definition combine8 (r : list float) : float :=
  match r with
  | [r0; r1; r2; r3; r4; r5; r6; r7] =>
      (((r0 + r1) + (r2 + r3)) + ((r4 + r5) + (r6 + r7)))%f64
  | _ => nan
  end.

(** From 8 to 128 elements. *)
Definition block_sum (a : list float) : float :=
  let '(r, rest) :=
    accumulate (length a / 8 - 1) (firstn 8 a) (skipn 8 a) in
  fold_left add rest (combine8 r).

(** The pairwise sum.  [depth] bounds the number of times the array is cut
    in two; the length of the array is always enough
    ([pairwise_sum_depth] below). *)
Fixpoint pairwise_sum (depth : nat) (a : list float) : float :=
  let n := length a in
  if (n <? 8)%nat then fold_left add a zero
  else if (n <=? 128)%nat then block_sum a
  else
    match depth with
    | O => block_sum a
    | S depth' =>
        let n2 := (n / 2 - (n / 2) mod 8)%nat in
        (pairwise_sum depth' (firstn n2 a)
         + pairwise_sum depth' (skipn n2 a))%f64
    end.

Definition np_sum (a : list float) : float :=
  (zero + pairwise_sum (length a) a)%f64.

Definition np_mean (a : list float) : float :=
  (np_sum a / of_Z (Z.of_nat (length a)))%f64.

Definition np_var (a : list float) : float :=
  let arrmean := np_mean a in
  let x := map (fun v => (v - arrmean)%f64) a in
  (np_sum (map (fun d => (d * d)%f64) x) / of_Z (Z.of_nat (length a)))%f64.

Definition np_std (a : list float) : float := sqrt (np_var a).

(** ** [collections.deque] with [maxlen] *)

Record deque : Type := mkDeque { maxlen : Z; items : list float }.

(** The range of a machine index ([Py_ssize_t], 64 bits), to which [deque]
    converts [maxlen] before it looks at it. *)
Definition index_min : Z := - 2 ^ 63.
Definition index_max : Z := 2 ^ 63 - 1.

(** [deque(maxlen=n)] for [n] in the range of a machine index: a negative
    [n] is refused.  (Outside that range the conversion of [n] itself fails,
    with [OverflowError]; this is not modelled, and what is stated about the
    construction is stated for the sizes in range.) *)
Definition deque_new (n : Z) : result deque :=
  if n <? 0 then Raise ValueError else Ok (mkDeque n []).

Definition len (d : deque) : Z := Z.of_nat (length (items d)).

(** [d[0]]. *)
Definition deque_first (d : deque) : result float :=
  match items d with
  | [] => Raise IndexError
  | x :: _ => Ok x
  end.

(** [d.append(x)]: the element goes to the right end and, when the bound
    is exceeded, the leftmost one is dropped. *)
Definition deque_append (d : deque) (x : float) : deque :=
  let grown := items d ++ [x] in
  if Z.of_nat (length grown) >? maxlen d
  then mkDeque (maxlen d) (tl grown)
  else mkDeque (maxlen d) grown.

(** ** [detect_and_visualize_anomalies] *)

(** The variables of the loop that detection depends on.  The two lists kept
    for the plot grow by one entry per classified point; they are returned
    as the [tick]s below. *)
Record state : Type := mkState {
  data_window : deque;
  mean : float;
  std_dev : float
}.

(** What one classified point leaves behind (lines 75-83): the point, its
    z-score and whether it was marked as an anomaly. *)
Record AnomalyRecord : Type := mkRecord {
  value : float;
  zscore : float;
  is_anomaly : bool
}.

(** What one iteration of the loop did: the classification, if there was
    one, and whether line 98 recomputed [mean] and [std_dev] from the
    window. *)
Record tick : Type := mkTick {
  emitted : option AnomalyRecord;
  seeded : bool
}.

(** Lines 59-60. *)
Definition initial_state (window_size : Z) : result state :=
  w <- deque_new window_size ;;
  Ok (mkState w zero zero).

Section Loop.

Variable window_size : Z.
Variable threshold : float.

(** Line 75. *)
Definition z_score (data_point mean std_dev : float) : result float :=
  if (std_dev !=? zero)%f64
  then truediv (data_point - mean)%f64 std_dev
  else Ok zero.

(** Lines 70-91: update and classification, when the window is full. *)
Definition classify (st : state) (data_point : float)
  : result (state * option AnomalyRecord) :=
  if len (data_window st) =? window_size then
    old_data <- deque_first (data_window st) ;;
    '(mean', std_dev') <-
      update_mean_std (mean st) (std_dev st) data_point old_data window_size ;;
    z <- z_score data_point mean' std_dev' ;;
    let flagged := (abs z >? threshold)%f64 in
    Ok (mkState (data_window st) mean' std_dev',
        Some (mkRecord data_point z flagged))
  else Ok (st, None).

(** Lines 97-98. *)
Definition seed_due (st : state) : bool :=
  (len (data_window st) =? window_size)
  && (mean st =? zero)%f64 && (std_dev st =? zero)%f64.

Definition seed (st : state) : state :=
  let a := items (data_window st) in
  mkState (data_window st) (np_mean a) (np_std a).

(** One iteration of the loop (lines 69-98). *)
Definition loop_body (st : state) (data_point : float)
  : result (state * tick) :=
  '(st1, out) <- classify st data_point ;;
  let st2 :=
    mkState (deque_append (data_window st1) data_point)
            (mean st1) (std_dev st1) in
  if seed_due st2
  then Ok (seed st2, mkTick out true)
  else Ok (st2, mkTick out false).

(** The loop over the values drawn so far. *)
Fixpoint loop (st : state) (data_stream : list float)
  : result (state * list tick) :=
  match data_stream with
  | [] => Ok (st, [])
  | data_point :: rest =>
      '(st', t) <- loop_body st data_point ;;
      '(st'', ts) <- loop st' rest ;;
      Ok (st'', t :: ts)
  end.

Definition detect_and_visualize_anomalies (data_stream : list float)
  : result (state * list tick) :=
  st <- initial_state window_size ;;
  loop st data_stream.

End Loop.

(** * Properties *)

(** ** Facts of binary64 arithmetic used below *)

Section FloatFacts.

Lemma round_aux_sign (s : bool) (m e : Z) (l : location) :
  binary_round_aux prec emax s m e l = S754_nan \/
  binary_round_aux prec emax s m e l = S754_zero s \/
  binary_round_aux prec emax s m e l = S754_infinity s \/
  exists m' e', binary_round_aux prec emax s m e l = S754_finite s m' e'.
Proof.
  unfold binary_round_aux.
  destruct (shr_fexp prec emax m e l) as [mrs' e'].
  destruct (shr_fexp prec emax _ e' loc_Exact) as [mrs'' e''].
  destruct (shr_m mrs'') as [|p|p]; auto.
  destruct (e'' <=? emax - prec); auto.
  do 3 right. exists p, e''. reflexivity.
Qed.

(** A square root is never below zero. *)
Lemma sqrt_not_neg (x : float) : (sqrt x <? zero)%f64 = false.
Proof.
  destruct x as [s|[|]| |[|] m e]; try reflexivity.
  unfold sqrt, SFsqrt.
  destruct (SFsqrt_core_binary prec emax (Z.pos m) e) as [[mz ez] lz].
  destruct (round_aux_sign false mz ez lz) as [H|[H|[H|(m' & e' & H)]]];
    rewrite H; reflexivity.
Qed.

(** Neither is a square. *)
Lemma sqr_not_neg (x : float) : (sqr x <? zero)%f64 = false.
Proof.
  destruct x as [[|]|[|]| |s m e]; try reflexivity.
  unfold sqr, mul, SFmul.
  destruct (round_aux_sign (xorb s s) (Z.pos (m * m)) (e + e) loc_Exact)
    as [H|[H|[H|(m' & e' & H)]]];
    rewrite H; destruct s; reflexivity.
Qed.

Lemma clamp_not_neg (v : float) : (clamp_variance v <? zero)%f64 = false.
Proof.
  unfold clamp_variance.
  destruct (v <? zero)%f64 eqn:E; [reflexivity | exact E].
Qed.

(** The guard of [update_mean_std] is Python's [max(new_variance, 0)]. *)
Lemma clamp_is_py_max (v : float) : clamp_variance v = py_max v zero.
Proof.
  unfold clamp_variance, py_max, gtb.
  destruct v as [[|]|[|]| |[|] m e]; reflexivity.
Qed.

Lemma clamp_nonneg (v : float) :
  is_nan v = false -> geb (clamp_variance v) zero = true.
Proof.
  destruct v as [[|]|[|]| |[|] m e]; intros H; try reflexivity; discriminate.
Qed.

(** NaN absorbs every operation it enters. *)
Lemma add_nan_l y : (nan + y)%f64 = nan.
Proof. reflexivity. Qed.

Lemma add_nan_r x : (x + nan)%f64 = nan.
Proof. destruct x; reflexivity. Qed.

Lemma sub_nan_l y : (nan - y)%f64 = nan.
Proof. reflexivity. Qed.

Lemma sub_nan_r x : (x - nan)%f64 = nan.
Proof. destruct x; reflexivity. Qed.

Lemma mul_nan_l y : (nan * y)%f64 = nan.
Proof. reflexivity. Qed.

Lemma div_nan_l y : (nan / y)%f64 = nan.
Proof. reflexivity. Qed.

Lemma div_nan_r x : (x / nan)%f64 = nan.
Proof. destruct x; reflexivity. Qed.

Lemma is_nan_eq x : is_nan x = true -> x = nan.
Proof. destruct x; try discriminate; reflexivity. Qed.

Lemma eqb_nan_l y : (nan =? y)%f64 = false.
Proof. reflexivity. Qed.

Lemma gtb_nan_l y : (nan >? y)%f64 = false.
Proof. destruct y; reflexivity. Qed.

(** Rounding a mantissa that is not negative never yields NaN. *)
Lemma shr_1_nonneg (mrs : shr_record) :
  0 <= shr_m mrs -> 0 <= shr_m (shr_1 mrs).
Proof.
  destruct mrs as [m r s]. cbn [shr_m]. intros Hm.
  destruct m as [|[p|p|]|p]; cbn [shr_1 shr_m]; lia.
Qed.

Lemma iter_shr_1_nonneg (p : positive) :
  forall mrs, 0 <= shr_m mrs -> 0 <= shr_m (iter_pos shr_1 p mrs).
Proof.
  induction p as [p IH|p IH|]; intros mrs Hm; cbn [iter_pos].
  - apply IH, IH, shr_1_nonneg, Hm.
  - apply IH, IH, Hm.
  - apply shr_1_nonneg, Hm.
Qed.

Lemma shr_fexp_nonneg (m e : Z) (l : location) :
  0 <= m -> 0 <= shr_m (fst (shr_fexp prec emax m e l)).
Proof.
  intros Hm. unfold shr_fexp, shr.
  assert (H0 : 0 <= shr_m (shr_record_of_loc m l))
    by (destruct l as [|[| |]]; exact Hm).
  destruct (fexp prec emax (Zdigits2 m + e) - e) as [|p|p]; cbn [fst];
    try exact H0.
  apply iter_shr_1_nonneg, H0.
Qed.

Lemma round_nearest_even_nonneg (m : Z) (l : location) :
  0 <= m -> 0 <= round_nearest_even m l.
Proof.
  intros Hm. unfold round_nearest_even.
  destruct l as [|[| |]]; try destruct (Z.even m); lia.
Qed.

Lemma round_aux_not_nan (s : bool) (m e : Z) (l : location) :
  0 <= m -> is_nan (binary_round_aux prec emax s m e l) = false.
Proof.
  intros Hm. unfold binary_round_aux.
  pose proof (shr_fexp_nonneg m e l Hm) as H1.
  destruct (shr_fexp prec emax m e l) as [mrs' e']. cbn [fst] in H1.
  pose proof (shr_fexp_nonneg
                (round_nearest_even (shr_m mrs') (loc_of_shr_record mrs'))
                e' loc_Exact (round_nearest_even_nonneg _ _ H1)) as H2.
  destruct (shr_fexp prec emax _ e' loc_Exact) as [mrs'' e''].
  cbn [fst] in H2.
  destruct (shr_m mrs'') as [|p|p]; [reflexivity| |lia].
  destruct (e'' <=? emax - prec); reflexivity.
Qed.

(** The square root of a value that is [>= 0] is [>= 0]. *)
Lemma sqrt_nonneg (x : float) : geb x zero = true -> geb (sqrt x) zero = true.
Proof.
  destruct x as [[|]|[|]| |[|] m e]; intros H; try discriminate H;
    try reflexivity.
  unfold sqrt, SFsqrt.
  destruct (SFsqrt_core_binary prec emax (Z.pos m) e) as [[mz ez] lz] eqn:E.
  assert (Hmz : 0 <= mz).
  { revert E. unfold SFsqrt_core_binary.
    set (m' := match e - 2 * _ with
               | 0 => Z.pos m
               | Z.pos _ => Z.shiftl (Z.pos m) _
               | Z.neg _ => 0
               end).
    assert (Hm' : 0 <= m').
    { subst m'. destruct (e - 2 * _) as [|p|p]; try lia.
      apply Z.shiftl_nonneg. lia. }
    pose proof (Z.sqrtrem_spec m' Hm') as Hs.
    destruct (Z.sqrtrem m') as [q r]. intros [= <- _ _]. lia. }
  pose proof (round_aux_not_nan false mz ez lz Hmz) as Hnan.
  destruct (round_aux_sign false mz ez lz) as [H'|[H'|[H'|(m' & e' & H')]]];
    rewrite H' in Hnan |- *; [discriminate Hnan| | |]; reflexivity.
Qed.

(** [float(n)] of a positive integer is not negative. *)
Lemma of_Z_pos_shape (n : Z) :
  1 <= n ->
  of_Z n = nan \/ of_Z n = S754_zero false \/ of_Z n = S754_infinity false
  \/ exists m e, of_Z n = S754_finite false m e.
Proof.
  intros Hn. destruct n as [|p|p]; try lia.
  unfold of_Z, binary_normalize, binary_round.
  destruct (shl_align p 0 _) as [mz ez].
  apply round_aux_sign.
Qed.

(** Sums and quotients of values that are not below 0 are not below 0. *)
Lemma add_not_neg (x y : float) :
  (x <? zero)%f64 = false -> (y <? zero)%f64 = false ->
  (x + y <? zero)%f64 = false.
Proof.
  destruct x as [[|]|[|]| |[|] mx ex], y as [[|]|[|]| |[|] my ey];
    intros Hx Hy; try discriminate Hx; try discriminate Hy; try reflexivity.
  unfold add, SFadd. cbv zeta. unfold cond_Zopp.
  destruct (shl_align mx ex (Z.min ex ey)) as [mx' ex'].
  destruct (shl_align my ey (Z.min ex ey)) as [my' ey'].
  cbn [fst]. cbn [Z.add]. unfold binary_normalize, binary_round.
  destruct (shl_align (mx' + my') (Z.min ex ey) _) as [mz ez].
  destruct (round_aux_sign false (Z.pos mz) ez loc_Exact)
    as [H|[H|[H|(m' & e' & H)]]]; rewrite H; reflexivity.
Qed.

Lemma div_not_neg (x : float) (n : Z) :
  0 <= n -> (x <? zero)%f64 = false -> (x / of_Z n <? zero)%f64 = false.
Proof.
  intros Hn Hx.
  destruct (Z.eq_dec n 0) as [->|Hne].
  - change (of_Z 0) with zero.
    destruct x as [[|]|[|]| |[|] mx ex]; try discriminate Hx; reflexivity.
  - destruct (of_Z_pos_shape n) as [E|[E|[E|(m & e & E)]]]; [lia|..];
      rewrite E;
      destruct x as [[|]|[|]| |[|] mx ex]; try discriminate Hx;
        try reflexivity.
    unfold div, SFdiv.
    destruct (SFdiv_core_binary prec emax (Z.pos mx) ex (Z.pos m) e)
      as [[mz ez] lz].
    cbn [xorb].
    destruct (round_aux_sign false mz ez lz)
      as [H|[H|[H|(m' & e' & H)]]]; rewrite H; reflexivity.
Qed.

Lemma not_neg_cases (x : float) :
  (x <? zero)%f64 = false -> geb x zero = true \/ is_nan x = true.
Proof.
  destruct x as [[|]|[|]| |[|] m e]; intros H;
    try discriminate H; auto.
Qed.

End FloatFacts.

(** ** Facts about numpy's sums *)

Lemma pairwise_sum_eq (depth : nat) (a : list float) :
  pairwise_sum depth a =
  if (length a <? 8)%nat then fold_left add a zero
  else if (length a <=? 128)%nat then block_sum a
  else
    match depth with
    | O => block_sum a
    | S depth' =>
        let n2 := (length a / 2 - (length a / 2) mod 8)%nat in
        (pairwise_sum depth' (firstn n2 a)
         + pairwise_sum depth' (skipn n2 a))%f64
    end.
Proof. destruct depth; reflexivity. Qed.

(** The bound on the cuts is never met when it is at least the length. *)
Lemma pairwise_sum_depth (d1 : nat) :
  forall (d2 : nat) (a : list float),
  (length a <= d1)%nat -> (length a <= d2)%nat ->
  pairwise_sum d1 a = pairwise_sum d2 a.
Proof.
  induction d1 as [|d1 IH]; intros d2 a H1 H2; rewrite !pairwise_sum_eq;
    destruct (Nat.ltb_spec (length a) 8) as [|H8]; try reflexivity;
    destruct (Nat.leb_spec (length a) 128) as [|H128]; try reflexivity;
    [lia|].
  destruct d2 as [|d2]; [lia|]. cbv zeta.
  set (n2 := (length a / 2 - (length a / 2) mod 8)%nat).
  assert (Hn2 : (1 <= n2 < length a)%nat).
  { subst n2.
    pose proof (Nat.Div0.mod_le (length a / 2) 8).
    pose proof (Nat.mod_upper_bound (length a / 2) 8 ltac:(lia)).
    pose proof (Nat.Div0.div_le_upper_bound (length a) 2 (length a))
      as Hd.
    assert (64 <= length a / 2)%nat
      by (apply Nat.div_le_lower_bound; lia).
    assert (length a / 2 < length a)%nat
      by (apply Nat.div_lt; lia).
    lia. }
  rewrite (IH d2 (firstn n2 a)), (IH d2 (skipn n2 a));
    rewrite ?length_firstn, ?length_skipn; try lia.
  reflexivity.
Qed.

Lemma add_each_length (r : list float) :
  forall block, length (add_each r block) = length r.
Proof.
  induction r as [|x r IH]; intros [|y block]; cbn [add_each length];
    try reflexivity.
  rewrite IH. reflexivity.
Qed.

Lemma accumulate_length (blocks : nat) :
  forall r a, length (fst (accumulate blocks r a)) = length r.
Proof.
  induction blocks as [|k IH]; intros r a; cbn [accumulate fst];
    [reflexivity|].
  rewrite IH. apply add_each_length.
Qed.

(** A property that one term of a sum passes on to the sum, as being NaN
    does, is passed on by one element to numpy's sum. *)
Section Absorbing.

Variable P : float -> Prop.
Hypothesis P_add_l : forall x y, P x -> P (x + y)%f64.
Hypothesis P_add_r : forall x y, P y -> P (x + y)%f64.

Lemma fold_add_absorbs (l : list float) :
  forall x, P x \/ Exists P l -> P (fold_left add l x).
Proof.
  induction l as [|y l IH]; intros x [Hx|Hl]; cbn [fold_left].
  - exact Hx.
  - inversion Hl.
  - apply IH. left. apply P_add_l, Hx.
  - apply IH. inversion Hl as [? ? Hy|? ? Hl']; subst.
    + left. apply P_add_r, Hy.
    + right. exact Hl'.
Qed.

Lemma add_each_absorbs (r : list float) :
  forall block, (length block <= length r)%nat ->
  Exists P r \/ Exists P block -> Exists P (add_each r block).
Proof.
  induction r as [|x r IH]; intros [|y block] Hlen [Hr|Hb];
    cbn [add_each length] in *; try lia;
    try exact Hr; try (inversion Hb; fail).
  - inversion Hr as [? ? Hx|? ? Hr']; subst.
    + apply Exists_cons_hd, P_add_l, Hx.
    + apply Exists_cons_tl, IH; [lia | left; exact Hr'].
  - inversion Hb as [? ? Hy|? ? Hb']; subst.
    + apply Exists_cons_hd, P_add_r, Hy.
    + apply Exists_cons_tl, IH; [lia | right; exact Hb'].
Qed.

Lemma Exists_split (k : nat) (a : list float) :
  Exists P a -> Exists P (firstn k a) \/ Exists P (skipn k a).
Proof.
  intros H. rewrite <- (firstn_skipn k a) in H.
  apply Exists_app in H. exact H.
Qed.

Lemma accumulate_absorbs (blocks : nat) :
  forall r a, length r = 8%nat ->
  Exists P r \/ Exists P a ->
  Exists P (fst (accumulate blocks r a))
  \/ Exists P (snd (accumulate blocks r a)).
Proof.
  induction blocks as [|k IH]; intros r a Hr H; cbn [accumulate];
    [exact H|].
  apply IH; [rewrite add_each_length; exact Hr|].
  assert (Hlen : (length (firstn 8 a) <= length r)%nat)
    by (rewrite length_firstn; lia).
  destruct H as [H|H].
  - left. apply add_each_absorbs; [exact Hlen | left; exact H].
  - destruct (Exists_split 8 a H) as [H'|H'].
    + left. apply add_each_absorbs; [exact Hlen | right; exact H'].
    + right. exact H'.
Qed.

Lemma combine8_absorbs (r : list float) :
  length r = 8%nat -> Exists P r -> P (combine8 r).
Proof.
  intros Hr H.
  destruct r as [|r0 [|r1 [|r2 [|r3 [|r4 [|r5 [|r6 [|r7 [|r8 r]]]]]]]]];
    try discriminate Hr.
  apply Exists_exists in H. destruct H as (x & Hin & Hx).
  cbn [combine8].
  destruct Hin as [<-|[<-|[<-|[<-|[<-|[<-|[<-|[<-|[]]]]]]]]];
    auto 6 using P_add_l, P_add_r.
Qed.

Lemma block_sum_absorbs (a : list float) :
  (8 <= length a)%nat -> Exists P a -> P (block_sum a).
Proof.
  intros H8 H. unfold block_sum.
  assert (Hr : length (firstn 8 a) = 8%nat) by (rewrite length_firstn; lia).
  pose proof (accumulate_length (length a / 8 - 1) (firstn 8 a) (skipn 8 a))
    as Hlen.
  pose proof (accumulate_absorbs (length a / 8 - 1) (firstn 8 a) (skipn 8 a)
                Hr (Exists_split 8 a H)) as Habs.
  destruct (accumulate _ _ _) as [r rest]. cbn [fst snd] in Hlen, Habs.
  apply fold_add_absorbs. destruct Habs as [Habs|Habs].
  - left. apply combine8_absorbs; [congruence | exact Habs].
  - right. exact Habs.
Qed.

Lemma pairwise_sum_absorbs (depth : nat) :
  forall a, Exists P a -> P (pairwise_sum depth a).
Proof.
  induction depth as [|d IH]; intros a H; rewrite pairwise_sum_eq;
    destruct (Nat.ltb_spec (length a) 8) as [|H8];
    try (apply fold_add_absorbs; right; exact H);
    destruct (Nat.leb_spec (length a) 128) as [|H128];
    try (apply block_sum_absorbs; [lia | exact H]).
  cbv zeta.
  destruct (Exists_split (length a / 2 - (length a / 2) mod 8) a H)
    as [H'|H'].
  - apply P_add_l, IH, H'.
  - apply P_add_r, IH, H'.
Qed.

Lemma np_sum_absorbs (a : list float) : Exists P a -> P (np_sum a).
Proof. intros H. apply P_add_r, pairwise_sum_absorbs, H. Qed.

End Absorbing.

(** A property that sums keep, as not being below 0, is kept by numpy's
    sum. *)
Section Closed.

Variable N : float -> Prop.
Hypothesis N_zero : N zero.
Hypothesis N_nan : N nan.
Hypothesis N_add : forall x y, N x -> N y -> N (x + y)%f64.

Lemma fold_add_keeps (l : list float) :
  forall x, N x -> Forall N l -> N (fold_left add l x).
Proof.
  induction l as [|y l IH]; intros x Hx Hl; cbn [fold_left]; [exact Hx|].
  inversion Hl as [|? ? Hy Hl']; subst. apply IH; [|exact Hl'].
  apply N_add; assumption.
Qed.

Lemma add_each_keeps (r : list float) :
  forall block, Forall N r -> Forall N block -> Forall N (add_each r block).
Proof.
  induction r as [|x r IH]; intros [|y block] Hr Hb; cbn [add_each];
    try exact Hr.
  inversion Hr as [|? ? Hx Hr']; inversion Hb as [|? ? Hy Hb']; subst.
  constructor; [apply N_add; assumption | apply IH; assumption].
Qed.

Lemma Forall_split (k : nat) (a : list float) :
  Forall N a -> Forall N (firstn k a) /\ Forall N (skipn k a).
Proof.
  intros H. rewrite <- (firstn_skipn k a) in H.
  apply Forall_app in H. exact H.
Qed.

Lemma accumulate_keeps (blocks : nat) :
  forall r a, Forall N r -> Forall N a ->
  Forall N (fst (accumulate blocks r a))
  /\ Forall N (snd (accumulate blocks r a)).
Proof.
  induction blocks as [|k IH]; intros r a Hr Ha; cbn [accumulate];
    [split; assumption|].
  destruct (Forall_split 8 a Ha) as [H1 H2].
  apply IH; [apply add_each_keeps; assumption | exact H2].
Qed.

Lemma combine8_keeps (r : list float) : Forall N r -> N (combine8 r).
Proof.
  intros H.
  destruct r as [|r0 [|r1 [|r2 [|r3 [|r4 [|r5 [|r6 [|r7 [|r8 r]]]]]]]]];
    try exact N_nan.
  cbn [combine8].
  repeat match goal with
         | H : Forall N (_ :: _) |- _ =>
             let Hx := fresh "Hx" in
             let Hl := fresh "Hl" in
             inversion H as [|? ? Hx Hl]; subst; clear H
         end.
  auto 6 using N_add.
Qed.

Lemma block_sum_keeps (a : list float) : Forall N a -> N (block_sum a).
Proof.
  intros H. unfold block_sum.
  destruct (Forall_split 8 a H) as [H1 H2].
  pose proof (accumulate_keeps (length a / 8 - 1) (firstn 8 a) (skipn 8 a)
                H1 H2) as [Hr Hrest].
  destruct (accumulate _ _ _) as [r rest]. cbn [fst snd] in Hr, Hrest.
  apply fold_add_keeps; [apply combine8_keeps, Hr | exact Hrest].
Qed.

Lemma pairwise_sum_keeps (depth : nat) :
  forall a, Forall N a -> N (pairwise_sum depth a).
Proof.
  induction depth as [|d IH]; intros a H; rewrite pairwise_sum_eq;
    destruct (length a <? 8)%nat;
    try (apply fold_add_keeps; [exact N_zero | exact H]);
    destruct (length a <=? 128)%nat;
    try (apply block_sum_keeps, H).
  cbv zeta.
  destruct (Forall_split (length a / 2 - (length a / 2) mod 8) a H)
    as [H1 H2].
  apply N_add; apply IH; assumption.
Qed.

Lemma np_sum_keeps (a : list float) : Forall N a -> N (np_sum a).
Proof.
  intros H. apply N_add; [exact N_zero | apply pairwise_sum_keeps, H].
Qed.

End Closed.

(** numpy's variance is not below 0, and neither is its root. *)
Lemma np_var_not_neg (a : list float) : (np_var a <? zero)%f64 = false.
Proof.
  unfold np_var. cbv zeta. apply div_not_neg; [lia|].
  apply (np_sum_keeps (fun x => (x <? zero)%f64 = false));
    [reflexivity | reflexivity | exact add_not_neg |].
  apply Forall_forall. intros y Hy.
  apply in_map_iff in Hy. destruct Hy as (d & <- & _).
  apply (sqr_not_neg d).
Qed.

Lemma np_std_nonneg (a : list float) :
  is_nan (np_var a) = false ->
  geb (np_var a) zero = true /\ geb (np_std a) zero = true.
Proof.
  intros Hnan.
  destruct (not_neg_cases _ (np_var_not_neg a)) as [H|H]; [|congruence].
  split; [exact H | apply sqrt_nonneg, H].
Qed.

(** ** The update, once its divisions are known not to raise *)

Lemma update_mean_std_ok (prev_mean prev_std new_data old_data : float)
    (window_size : Z) :
  window_size <> 0 ->
  update_mean_std prev_mean prev_std new_data old_data window_size =
  let new_mean := (prev_mean + (new_data - old_data) / of_Z window_size)%f64 in
  let new_variance :=
    ((sqr prev_std * of_Z (window_size - 1)
      - sqr (old_data - prev_mean) + sqr (new_data - new_mean))
     / of_Z window_size)%f64 in
  Ok (new_mean, sqrt (clamp_variance new_variance)).
Proof.
  intros Hws.
  unfold update_mean_std, updated_mean, updated_variance, truediv_int.
  destruct (Z.eqb_spec window_size 0) as [E|_]; [contradiction|].
  reflexivity.
Qed.

Lemma update_mean_std_total (prev_mean prev_std new_data old_data : float)
    (window_size : Z) :
  window_size <> 0 ->
  exists new_mean new_std,
    update_mean_std prev_mean prev_std new_data old_data window_size
    = Ok (new_mean, new_std)
    /\ (new_std <? zero)%f64 = false.
Proof.
  intros Hws. rewrite update_mean_std_ok by assumption. cbv zeta.
  eexists _, _. split; [reflexivity | apply sqrt_not_neg].
Qed.

(** The z-score never raises: its division sits behind the test. *)
Lemma z_score_ok (data_point mean std_dev : float) :
  z_score data_point mean std_dev =
  Ok (if (std_dev =? zero)%f64 then zero
      else ((data_point - mean) / std_dev)%f64).
Proof.
  unfold z_score, truediv, neb.
  destruct (std_dev =? zero)%f64; reflexivity.
Qed.

(** ** The window *)

Lemma deque_append_maxlen (d : deque) (x : float) :
  maxlen (deque_append d x) = maxlen d.
Proof.
  unfold deque_append. cbv zeta.
  destruct (Z.of_nat (length (items d ++ [x])) >? maxlen d); reflexivity.
Qed.

Lemma deque_append_len (d : deque) (x : float) :
  len d <= maxlen d ->
  len (deque_append d x) = Z.min (len d + 1) (maxlen d).
Proof.
  unfold len, deque_append. cbv zeta. intros Hle.
  assert (Hgrown : length (items d ++ [x]) = S (length (items d)))
    by (rewrite length_app; simpl; lia).
  destruct (Z.gtb_spec (Z.of_nat (length (items d ++ [x]))) (maxlen d))
    as [Hgt|Hngt]; cbn [items].
  - destruct (items d ++ [x]) as [|y grown] eqn:E; simpl in *; lia.
  - lia.
Qed.

Lemma deque_first_nonempty (d : deque) :
  1 <= len d -> exists old, deque_first d = Ok old.
Proof.
  unfold len, deque_first.
  destruct (items d) as [|old rest]; simpl; intros H; [lia | eauto].
Qed.

(** ** One iteration of the loop *)

Section LoopFacts.

Variable window_size : Z.
Variable threshold : float.
Hypothesis window_size_pos : 1 <= window_size.

(** The shape every state of a run has. *)
Definition well_formed (st : state) : Prop :=
  maxlen (data_window st) = window_size
  /\ len (data_window st) <= window_size
  /\ (std_dev st <? zero)%f64 = false.

Lemma classify_filling (st : state) (data_point : float) :
  len (data_window st) <> window_size ->
  classify window_size threshold st data_point = Ok (st, None).
Proof.
  intros Hne. unfold classify.
  destruct (Z.eqb_spec (len (data_window st)) window_size); [contradiction|].
  reflexivity.
Qed.

Lemma classify_full (st : state) (data_point : float) :
  len (data_window st) = window_size ->
  exists old_data new_mean new_std,
    deque_first (data_window st) = Ok old_data
    /\ update_mean_std (mean st) (std_dev st) data_point old_data window_size
       = Ok (new_mean, new_std)
    /\ (new_std <? zero)%f64 = false
    /\ classify window_size threshold st data_point =
       let z := if (new_std =? zero)%f64 then zero
                else ((data_point - new_mean) / new_std)%f64 in
       Ok (mkState (data_window st) new_mean new_std,
           Some (mkRecord data_point z (abs z >? threshold)%f64)).
Proof.
  intros Hfull.
  destruct (deque_first_nonempty (data_window st)) as [old Hold]; [lia|].
  destruct (update_mean_std_total (mean st) (std_dev st) data_point old
              window_size) as (m' & s' & Hupd & Hs'); [lia|].
  exists old, m', s'. repeat split; try assumption.
  unfold classify. rewrite Hfull, Z.eqb_refl, Hold. cbn [bind].
  rewrite Hupd. cbn [bind]. rewrite z_score_ok. reflexivity.
Qed.

Lemma classify_well_formed (st : state) (data_point : float) :
  well_formed st ->
  exists st1 out,
    classify window_size threshold st data_point = Ok (st1, out)
    /\ data_window st1 = data_window st
    /\ (std_dev st1 <? zero)%f64 = false.
Proof.
  intros (Hmax & Hlen & Hstd).
  destruct (Z.eq_dec (len (data_window st)) window_size) as [Hfull|Hne].
  - destruct (classify_full st data_point Hfull)
      as (old & m' & s' & _ & _ & Hs' & Hc).
    rewrite Hc. cbv zeta. eexists _, _. repeat split. exact Hs'.
  - rewrite classify_filling by assumption. eexists _, _. repeat split.
    exact Hstd.
Qed.

Lemma loop_body_well_formed (st : state) (data_point : float) :
  well_formed st ->
  exists st' t,
    loop_body window_size threshold st data_point = Ok (st', t)
    /\ well_formed st'
    /\ len (data_window st')
       = Z.min (len (data_window st) + 1) window_size.
Proof.
  intros Hwf.
  destruct (classify_well_formed st data_point Hwf)
    as (st1 & out & Hc & Hwin & Hstd1).
  destruct Hwf as (Hmax & Hlen & _).
  unfold loop_body. rewrite Hc. cbn [bind]. cbv zeta.
  rewrite Hwin.
  assert (Hlen' : len (deque_append (data_window st) data_point)
                  = Z.min (len (data_window st) + 1) window_size)
    by (rewrite deque_append_len, Hmax; [reflexivity | lia]).
  destruct (seed_due _ _); eexists _, _;
    (split; [reflexivity|]); unfold well_formed, seed; cbn [data_window std_dev];
    rewrite deque_append_maxlen, Hlen';
    repeat split; try assumption; try lia.
  apply sqrt_not_neg.
Qed.

Lemma loop_well_formed (data_stream : list float) :
  forall st, well_formed st ->
  exists st' ts,
    loop window_size threshold st data_stream = Ok (st', ts)
    /\ well_formed st'
    /\ length ts = length data_stream
    /\ len (data_window st')
       = Z.min (len (data_window st) + Z.of_nat (length data_stream))
               window_size.
Proof.
  induction data_stream as [|x rest IH]; intros st Hwf.
  - exists st, []. cbn [loop length]. repeat split; try apply Hwf.
    destruct Hwf as (_ & Hlen & _). lia.
  - destruct (loop_body_well_formed st x Hwf) as (st1 & t & Hb & Hwf1 & Hl1).
    destruct (IH st1 Hwf1) as (st2 & ts & Hloop & Hwf2 & Hts & Hl2).
    exists st2, (t :: ts). cbn [loop]. rewrite Hb. cbn [bind].
    rewrite Hloop. cbn [bind length]. repeat split; try apply Hwf2.
    + congruence.
    + rewrite Hl2, Hl1. destruct Hwf as (_ & Hlen & _). lia.
Qed.

Lemma initial_state_well_formed :
  exists st, initial_state window_size = Ok st
             /\ well_formed st /\ len (data_window st) = 0.
Proof.
  unfold initial_state, deque_new.
  destruct (Z.ltb_spec window_size 0); [lia|].
  eexists. split; [reflexivity|].
  unfold well_formed, len. cbn. repeat split; lia.
Qed.

Lemma detect_well_formed (data_stream : list float) :
  exists st ts,
    detect_and_visualize_anomalies window_size threshold data_stream
    = Ok (st, ts)
    /\ well_formed st
    /\ length ts = length data_stream
    /\ len (data_window st)
       = Z.min (Z.of_nat (length data_stream)) window_size.
Proof.
  destruct initial_state_well_formed as (st0 & H0 & Hwf0 & Hl0).
  destruct (loop_well_formed data_stream st0 Hwf0)
    as (st & ts & Hloop & Hwf & Hts & Hl).
  exists st, ts. unfold detect_and_visualize_anomalies.
  rewrite H0. cbn [bind]. rewrite Hloop. repeat split; try apply Hwf.
  - exact Hts.
  - rewrite Hl, Hl0. reflexivity.
Qed.

End LoopFacts.

(** ** Reading a run *)

Definition classifications (ts : list tick) : list (option bool) :=
  map (fun t => option_map is_anomaly (emitted t)) ts.

Definition zscores (ts : list tick) : list (option float) :=
  map (fun t => option_map zscore (emitted t)) ts.

Definition seedings (ts : list tick) : list bool := map seeded ts.

(** [0.1], that is [0x1.999999999999ap-4]. *)
Definition tenth : float := S754_finite false 7205759403792794 (-56).

Example tenth_is_1_over_10 : tenth = (of_Z 1 / of_Z 10)%f64.
Proof. vm_compute. reflexivity. Qed.

(** [1e200]. *)
Definition huge : float := of_Z (10 ^ 200).

(** Concrete runs are settled by evaluation, one conjunct after the other,
    so that each value asked for is known before it is used. *)
Ltac by_computation :=
  repeat lazymatch goal with
         | |- _ /\ _ => split; [vm_compute; reflexivity|]
         | |- exists _, _ => eexists
         end;
  vm_compute; reflexivity.

(** ** C1: the incremental update against direct recomputation *)

(** The variance formula as the specification writes it, with the factor
    [window_size] where line 37 has [window_size - 1]. *)
Definition spec_new_variance (mean variance incoming outgoing : float)
    (window_size : Z) : float :=
  let n := of_Z window_size in
  let new_mean := (mean + (incoming - outgoing) / n)%f64 in
  ((variance * n - sqr (outgoing - mean) + sqr (incoming - new_mean)) / n)%f64.

(** Line 37 does not compute that formula: on the window [0, 0, 4, 4]
    (mean 2, deviation 2) with a 0 replacing the 0 that leaves, it yields
    3 where the formula of the specification yields 4. *)
Example updated_variance_is_not_spec_formula :
  updated_variance (of_Z 2) (of_Z 2) (of_Z 0) (of_Z 0) 4 (of_Z 2)
    = Ok (of_Z 3)
  /\ spec_new_variance (of_Z 2) (sqr (of_Z 2)) (of_Z 0) (of_Z 0) 4 = of_Z 4.
Proof. split; vm_compute; reflexivity. Qed.

(** Nor is the formula of the specification the population variance of the
    new window: from [0, 0] to [0, 2] it gives 1/2, the window has 1. *)
Example spec_formula_is_not_exact :
  spec_new_variance zero zero (of_Z 2) zero 2 = (of_Z 1 / of_Z 2)%f64
  /\ np_var [zero; of_Z 2] = of_Z 1.
Proof. split; vm_compute; reflexivity. Qed.

(** C1 (defect): with [window_size = 4] and the stream [0, 0, 4, 4, 0], the
    fifth value replaces an equal one, so the window still holds two 0s and
    two 4s: its mean is 2 and its population standard deviation is 2.  The
    update keeps the mean but returns the square root of 3 for the standard
    deviation, more than 1/4 away from the recomputed value.  No reseeding
    takes place on that tick. *)
Theorem update_std_differs_from_recomputation :
  exists st ts,
    detect_and_visualize_anomalies 4 (of_Z 3) (map of_Z [0; 0; 4; 4; 0])
    = Ok (st, ts)
    /\ items (data_window st) = map of_Z [0; 4; 4; 0]
    /\ seedings ts = [false; false; false; true; false]
    /\ mean st = np_mean (items (data_window st))
    /\ np_std (items (data_window st)) = of_Z 2
    /\ std_dev st = sqrt (of_Z 3)
    /\ update_mean_std (of_Z 2) (of_Z 2) (of_Z 0) (of_Z 0) 4
       = Ok (of_Z 2, sqrt (of_Z 3))
    /\ (of_Z 1 / of_Z 4
        <? abs (np_std (items (data_window st)) - std_dev st))%f64 = true.
Proof. by_computation. Qed.

(** ** C2: the scenario with one outlier *)

Definition outlier_stream : list float :=
  map of_Z [1; 1; 1; 1; 1; 1; 50; 1; 1; 1].

(** C2 (as stated, refuted): on the tick at which 50 enters the full window
    the point is not marked as an anomaly and its z-score does not exceed
    the threshold 3. *)
Lemma outlier_50_is_not_flagged :
  ~ (exists st ts t r,
       detect_and_visualize_anomalies 5 (of_Z 3) outlier_stream = Ok (st, ts)
       /\ nth_error ts 6 = Some t
       /\ emitted t = Some r
       /\ (abs (zscore r) >? of_Z 3)%f64 = true
       /\ is_anomaly r = true).
Proof.
  intros (st & ts & t & r & Hrun & Ht & Hr & _ & Hflag).
  vm_compute in Hrun. injection Hrun as _ <-.
  cbn in Ht. injection Ht as <-.
  cbn in Hr. injection Hr as <-.
  discriminate Hflag.
Qed.

(** C2 (amended): with [window_size = 5] and threshold 3, the stream
    [1,1,1,1,1,1,50,1,1,1] yields no classification on its first five ticks,
    z-score 0 for the sixth value, a z-score between 2 and 3 for 50 (the
    update has already taken 50 into the statistics it is measured against),
    and z-scores below 1 in absolute value for the three 1s that follow;
    none of the ten points is marked as an anomaly. *)
Theorem outlier_scenario :
  exists st ts,
    detect_and_visualize_anomalies 5 (of_Z 3) outlier_stream = Ok (st, ts)
    /\ classifications ts =
       [None; None; None; None; None;
        Some false; Some false; Some false; Some false; Some false]
    /\ exists z6 z7 z8 z9 z10,
         zscores ts =
         [None; None; None; None; None;
          Some z6; Some z7; Some z8; Some z9; Some z10]
         /\ z6 = zero
         /\ (of_Z 2 <? z7)%f64 = true /\ (z7 <? of_Z 3)%f64 = true
         /\ (abs z8 <? of_Z 1)%f64 = true
         /\ (abs z9 <? of_Z 1)%f64 = true
         /\ (abs z10 <? of_Z 1)%f64 = true.
Proof.
  by_computation.
Qed.

(** ** C3: construction *)

(** C3 (as stated, refuted): a window of size 1, and one of size 0, are
    accepted at construction. *)
Lemma window_size_below_2_is_accepted :
  initial_state 1 = Ok (mkState (mkDeque 1 []) zero zero)
  /\ initial_state 0 = Ok (mkState (mkDeque 0 []) zero zero)
  /\ ~ (forall window_size, window_size < 2 ->
        exists e, initial_state window_size = Raise e).
Proof.
  repeat split. intros H. destruct (H 1) as [e He]; [lia|]. discriminate He.
Qed.

(** A window of size 0 fails on the first value drawn, when [data_window[0]]
    is read from the empty queue. *)
Lemma window_size_0_fails_at_first_use threshold data_point rest :
  detect_and_visualize_anomalies 0 threshold (data_point :: rest)
  = Raise IndexError.
Proof. reflexivity. Qed.

(** C3 (amended): for a window size in the range of a machine index, the
    construction fails, with the [ValueError] of the bounded queue and
    whatever the stream, exactly when the size is negative; every size from
    0 on is accepted, 0 and 1 included, and yields the empty window with
    both statistics at 0.  A window of size 0 then fails at first use, with
    [IndexError] on the first value drawn, and a window of size 1 or more
    never fails. *)
Theorem construction_accepts_non_negative
    (window_size : Z) (threshold : float) (data_stream : list float) :
  index_min <= window_size <= index_max ->
  (window_size < 0 ->
     initial_state window_size = Raise ValueError
     /\ detect_and_visualize_anomalies window_size threshold data_stream
        = Raise ValueError)
  /\ (0 <= window_size ->
      initial_state window_size
      = Ok (mkState (mkDeque window_size []) zero zero))
  /\ (window_size = 0 ->
      detect_and_visualize_anomalies window_size threshold data_stream
      = match data_stream with
        | [] => Ok (mkState (mkDeque 0 []) zero zero, [])
        | _ :: _ => Raise IndexError
        end)
  /\ (1 <= window_size ->
      exists st ts,
        detect_and_visualize_anomalies window_size threshold data_stream
        = Ok (st, ts)).
Proof.
  intros _. split; [|split; [|split]].
  - intros Hneg. unfold detect_and_visualize_anomalies, initial_state, deque_new.
    replace (window_size <? 0) with true by (symmetry; apply Z.ltb_lt; lia).
    split; reflexivity.
  - intros Hnn. unfold initial_state, deque_new.
    replace (window_size <? 0) with false by (symmetry; apply Z.ltb_ge; lia).
    reflexivity.
  - intros ->. destruct data_stream as [|x rest]; reflexivity.
  - intros Hpos.
    destruct (detect_well_formed window_size threshold Hpos data_stream)
      as (st & ts & Hrun & _).
    exists st, ts. exact Hrun.
Qed.

Lemma construction_accepts_non_negative_witness :
  index_min <= 0 <= index_max
  /\ (0 < 0 ->
      initial_state 0 = Raise ValueError
      /\ detect_and_visualize_anomalies 0 (of_Z 3) [of_Z 1]
         = Raise ValueError)
  /\ (0 <= 0 -> initial_state 0 = Ok (mkState (mkDeque 0 []) zero zero))
  /\ (0 = 0 ->
      detect_and_visualize_anomalies 0 (of_Z 3) [of_Z 1]
      = match [of_Z 1] with
        | [] => Ok (mkState (mkDeque 0 []) zero zero, [])
        | _ :: _ => Raise IndexError
        end)
  /\ (1 <= 0 ->
      exists st ts,
        detect_and_visualize_anomalies 0 (of_Z 3) [of_Z 1] = Ok (st, ts)).
Proof.
  assert (Hrange : index_min <= 0 <= index_max)
    by (unfold index_min, index_max; lia).
  split; [exact Hrange|].
  apply (construction_accepts_non_negative 0 (of_Z 3) [of_Z 1]).
  exact Hrange.
Defined.

(** ** C4: a window of one constant value *)

(** C4 (defect): with [window_size = 3] and threshold 3, feed 0.1 nine
    times.  The window is constant from the third tick on, yet the seeded
    standard deviation is not 0 (the mean of three 0.1 rounds to the next
    float above 0.1), every classification carries a non-zero z-score, the
    deviation held shrinks at each update, and the ninth value is marked as
    an anomaly with a z-score below -3. *)
Theorem constant_stream_is_flagged :
  exists st ts,
    detect_and_visualize_anomalies 3 (of_Z 3) (repeat tenth 9) = Ok (st, ts)
    /\ items (data_window st) = [tenth; tenth; tenth]
    /\ (np_std [tenth; tenth; tenth] =? zero)%f64 = false
    /\ (std_dev st =? zero)%f64 = false
    /\ forallb (fun oz => match oz with
                          | Some z => (z !=? zero)%f64
                          | None => true
                          end) (zscores ts) = true
    /\ classifications ts =
       [None; None; None;
        Some false; Some false; Some false; Some false; Some false; Some true]
    /\ exists z, nth_error (zscores ts) 8 = Some (Some z)
                 /\ (z <? of_Z (-3))%f64 = true.
Proof.
  by_computation.
Qed.

(** ** C5: how often the statistics are seeded *)

(** C5 (defect): with [window_size = 2] and the stream [0, 0, 0], line 98
    runs on the second tick, when the window first fills, and again on the
    third: a mean and a deviation that are both 0 are taken for statistics
    that were never set. *)
Theorem zero_window_is_seeded_twice :
  exists st ts,
    detect_and_visualize_anomalies 2 (of_Z 3) [zero; zero; zero] = Ok (st, ts)
    /\ seedings ts = [false; true; true].
Proof. by_computation. Qed.

(** The second seeding need not be idle: on [5, 5, 1, -1] the fourth update
    leaves mean 0 and (its variance being negative) deviation 0, and the
    seeding that follows replaces that deviation by the one of the window
    [1, -1], which is 1. *)
Lemma reseeding_overwrites_update :
  exists st3 ts3 st4 ts4,
    detect_and_visualize_anomalies 2 (of_Z 3) (map of_Z [5; 5; 1])
    = Ok (st3, ts3)
    /\ update_mean_std (mean st3) (std_dev st3) (of_Z (-1)) (of_Z 5) 2
       = Ok (zero, zero)
    /\ detect_and_visualize_anomalies 2 (of_Z 3) (map of_Z [5; 5; 1; -1])
       = Ok (st4, ts4)
    /\ seedings ts4 = [false; true; false; true]
    /\ mean st4 = zero
    /\ std_dev st4 = of_Z 1.
Proof.
  by_computation.
Qed.

(** ** C6: the length of the window *)

(** C6: for a window size of at least 1, after [n] values the loop has not
    raised and the window holds [min(n, window_size)] of them. *)
Theorem window_length_invariant
    (window_size : Z) (threshold : float) (data_stream : list float) :
  1 <= window_size ->
  exists st ts,
    detect_and_visualize_anomalies window_size threshold data_stream
    = Ok (st, ts)
    /\ len (data_window st)
       = Z.min (Z.of_nat (length data_stream)) window_size.
Proof.
  intros Hpos.
  destruct (detect_well_formed window_size threshold Hpos data_stream)
    as (st & ts & Hrun & _ & _ & Hlen).
  exists st, ts. split; assumption.
Qed.

Lemma window_length_invariant_witness :
  1 <= 5
  /\ exists st ts,
       detect_and_visualize_anomalies 5 (of_Z 3) outlier_stream = Ok (st, ts)
       /\ len (data_window st)
          = Z.min (Z.of_nat (length outlier_stream)) 5.
Proof.
  split; [lia|].
  apply (window_length_invariant 5 (of_Z 3) outlier_stream). lia.
Defined.

(** ** C7: the guard on the variance *)

(** C7 (as stated, refuted): with [window_size = 2], after 1e200 and -1e200
    the seeded deviation is infinite; on the next value, 0, line 37 computes
    infinity minus infinity, the guard lets that NaN through, and the
    argument of the square root is not [>= 0]. *)
Lemma sqrt_argument_nan_after_overflow :
  exists st ts old_data new_mean new_variance,
    detect_and_visualize_anomalies 2 (of_Z 3) [huge; SFopp huge] = Ok (st, ts)
    /\ deque_first (data_window st) = Ok old_data
    /\ updated_mean (mean st) zero old_data 2 = Ok new_mean
    /\ updated_variance (mean st) (std_dev st) zero old_data 2 new_mean
       = Ok new_variance
    /\ geb (clamp_variance new_variance) zero = false
    /\ update_mean_std (mean st) (std_dev st) zero old_data 2
       = Ok (new_mean, nan).
Proof.
  by_computation.
Qed.

(** The state after [0, 0, 1] with a window of 2: the window is [0, 1],
    the mean 1/2 and the deviation the root of 1/8. *)
Definition drifted_window_state : state :=
  mkState (mkDeque 2 [zero; of_Z 1])
          (of_Z 1 / of_Z 2)%f64 (sqrt (of_Z 1 / of_Z 8)%f64).

Example drifted_window_state_is_reached :
  exists ts,
    detect_and_visualize_anomalies 2 (of_Z 3) [zero; zero; of_Z 1]
    = Ok (drifted_window_state, ts).
Proof. eexists. vm_compute. reflexivity. Qed.

(** There the next 1 makes the variance of line 37 negative, and the
    deviation kept is exactly 0. *)
Example negative_variance_is_clamped :
  exists new_mean new_variance r,
    updated_mean (mean drifted_window_state) (of_Z 1) zero 2 = Ok new_mean
    /\ updated_variance (mean drifted_window_state)
         (std_dev drifted_window_state) (of_Z 1) zero 2 new_mean
       = Ok new_variance
    /\ (new_variance <? zero)%f64 = true
    /\ classify 2 (of_Z 3) drifted_window_state (of_Z 1)
       = Ok (mkState (data_window drifted_window_state) new_mean zero, Some r).
Proof. by_computation. Qed.

(** C7 (amended): on every update the detector makes, that is on every tick
    that finds the window full (of a size of at least 1), the update does
    not raise and returns the square root of [max(new_variance, 0)], which
    becomes the deviation held: a negative [new_variance] is replaced by
    exactly 0, the argument of the square root is never below 0, it is
    [>= 0] whenever [new_variance] is not NaN, and it is NaN when
    [new_variance] is, a NaN passing the guard unchanged. *)
Theorem update_clamps_negative_variance
    (window_size : Z) (threshold : float) (st : state) (data_point : float) :
  1 <= window_size ->
  len (data_window st) = window_size ->
  exists old_data new_mean new_variance r,
    deque_first (data_window st) = Ok old_data
    /\ updated_mean (mean st) data_point old_data window_size = Ok new_mean
    /\ updated_variance (mean st) (std_dev st) data_point old_data
         window_size new_mean = Ok new_variance
    /\ update_mean_std (mean st) (std_dev st) data_point old_data window_size
       = Ok (new_mean, sqrt (py_max new_variance zero))
    /\ classify window_size threshold st data_point
       = Ok (mkState (data_window st) new_mean
               (sqrt (py_max new_variance zero)),
             Some r)
    /\ ((new_variance <? zero)%f64 = true -> py_max new_variance zero = zero)
    /\ (py_max new_variance zero <? zero)%f64 = false
    /\ (is_nan new_variance = false ->
        geb (py_max new_variance zero) zero = true)
    /\ (is_nan new_variance = true ->
        is_nan (py_max new_variance zero) = true).
Proof.
  intros Hpos Hfull.
  destruct (classify_full window_size threshold Hpos st data_point Hfull)
    as (old & m' & s' & Hold & Hupd & _ & Hc).
  pose proof (update_mean_std_ok (mean st) (std_dev st) data_point old
                window_size ltac:(lia)) as Hok.
  cbv zeta in Hok, Hc. rewrite Hok in Hupd. injection Hupd as Hm Hs.
  subst m' s'. rewrite clamp_is_py_max in Hok, Hc.
  exists old. eexists _, _, _.
  split; [exact Hold|].
  unfold updated_mean, updated_variance, truediv_int.
  destruct (Z.eqb_spec window_size 0) as [E|_]; [lia|]. cbn [bind].
  split; [reflexivity|]. split; [reflexivity|].
  split; [exact Hok|]. split; [exact Hc|].
  rewrite <- clamp_is_py_max. split; [|split; [|split]].
  - intros Hneg. unfold clamp_variance. rewrite Hneg. reflexivity.
  - apply clamp_not_neg.
  - apply clamp_nonneg.
  - intros Hnan. rewrite (is_nan_eq _ Hnan). reflexivity.
Qed.

Lemma update_clamps_negative_variance_witness :
  1 <= 2
  /\ len (data_window drifted_window_state) = 2
  /\ exists old_data new_mean new_variance r,
       deque_first (data_window drifted_window_state) = Ok old_data
       /\ updated_mean (mean drifted_window_state) (of_Z 1) old_data 2
          = Ok new_mean
       /\ updated_variance (mean drifted_window_state)
            (std_dev drifted_window_state) (of_Z 1) old_data 2 new_mean
          = Ok new_variance
       /\ update_mean_std (mean drifted_window_state)
            (std_dev drifted_window_state) (of_Z 1) old_data 2
          = Ok (new_mean, sqrt (py_max new_variance zero))
       /\ classify 2 (of_Z 3) drifted_window_state (of_Z 1)
          = Ok (mkState (data_window drifted_window_state) new_mean
                  (sqrt (py_max new_variance zero)),
                Some r)
       /\ ((new_variance <? zero)%f64 = true ->
           py_max new_variance zero = zero)
       /\ (py_max new_variance zero <? zero)%f64 = false
       /\ (is_nan new_variance = false ->
           geb (py_max new_variance zero) zero = true)
       /\ (is_nan new_variance = true ->
           is_nan (py_max new_variance zero) = true).
Proof.
  split; [lia|]. split; [reflexivity|].
  apply (update_clamps_negative_variance 2 (of_Z 3) drifted_window_state
           (of_Z 1)); [lia | reflexivity].
Defined.

(** ** C8: the sign of the statistics *)

(** C8 (as stated, refuted): with [window_size = 2], the stream [-1, -1]
    is seeded on its second tick with mean -1, which is below 0. *)
Lemma seeded_mean_can_be_negative :
  exists st ts,
    detect_and_visualize_anomalies 2 (of_Z 3) (map of_Z [-1; -1]) = Ok (st, ts)
    /\ seedings ts = [false; true]
    /\ mean st = of_Z (-1)
    /\ geb (mean st) zero = false.
Proof. by_computation. Qed.

(** Nor is the deviation always [>= 0]: with [window_size = 2], the finite
    stream [1e200, -1e200, 0] ends with a deviation that is NaN. *)
Lemma updated_deviation_can_be_nan :
  exists st ts,
    detect_and_visualize_anomalies 2 (of_Z 3) [huge; SFopp huge; zero]
    = Ok (st, ts)
    /\ is_nan (std_dev st) = true
    /\ geb (std_dev st) zero = false.
Proof. by_computation. Qed.

(** The state after [-1, -1, -3] with a window of 2: the window is
    [-1, -3], the mean -2 and the deviation, as the update leaves it, the
    root of 1/2. *)
Definition negative_window_state : state :=
  mkState (mkDeque 2 (map of_Z [-1; -3])) (of_Z (-2))
          (sqrt (of_Z 1 / of_Z 2)%f64).

Example negative_window_state_is_reached :
  exists ts,
    detect_and_visualize_anomalies 2 (of_Z 3) (map of_Z [-1; -1; -3])
    = Ok (negative_window_state, ts).
Proof. eexists. vm_compute. reflexivity. Qed.

(** C8 (amended): the mean follows the data and may be negative; the
    deviation is never below 0 and, NaN apart, [>= 0].  For a window size
    of at least 1: after every stream the run has not raised and the
    deviation held is not below 0; after every incremental update (a tick
    that finds the window full) the deviation held is the square root of
    [max(v, 0)], [v] the variance of line 37, which is exactly 0 when [v] is
    negative, [>= 0] whenever [v] is not NaN and NaN when [v] is NaN; after
    every seed it is the square root of numpy's variance of the window,
    which is never below 0, and [>= 0] whenever that variance is not
    NaN. *)
Theorem std_dev_never_negative
    (window_size : Z) (threshold : float) (data_stream : list float)
    (st : state) (data_point : float) :
  1 <= window_size ->
  len (data_window st) = window_size ->
  (exists st_end ts,
     detect_and_visualize_anomalies window_size threshold data_stream
     = Ok (st_end, ts)
     /\ (std_dev st_end <? zero)%f64 = false)
  /\ (exists old_data new_mean new_variance r,
        deque_first (data_window st) = Ok old_data
        /\ updated_mean (mean st) data_point old_data window_size
           = Ok new_mean
        /\ updated_variance (mean st) (std_dev st) data_point old_data
             window_size new_mean = Ok new_variance
        /\ classify window_size threshold st data_point
           = Ok (mkState (data_window st) new_mean
                   (sqrt (py_max new_variance zero)),
                 Some r)
        /\ ((new_variance <? zero)%f64 = true ->
            sqrt (py_max new_variance zero) = zero)
        /\ (is_nan new_variance = false ->
            geb (py_max new_variance zero) zero = true
            /\ geb (sqrt (py_max new_variance zero)) zero = true)
        /\ (is_nan new_variance = true ->
            is_nan (sqrt (py_max new_variance zero)) = true))
  /\ (std_dev (seed st) = sqrt (np_var (items (data_window st)))
      /\ (np_var (items (data_window st)) <? zero)%f64 = false
      /\ (std_dev (seed st) <? zero)%f64 = false
      /\ (is_nan (np_var (items (data_window st))) = false ->
          geb (np_var (items (data_window st))) zero = true
          /\ geb (std_dev (seed st)) zero = true)).
Proof.
  intros Hpos Hfull. split; [|split].
  - destruct (detect_well_formed window_size threshold Hpos data_stream)
      as (st_end & ts & Hrun & (_ & _ & Hstd) & _).
    exists st_end, ts. split; assumption.
  - destruct (classify_full window_size threshold Hpos st data_point Hfull)
      as (old & m' & s' & Hold & Hupd & _ & Hc).
    pose proof (update_mean_std_ok (mean st) (std_dev st) data_point old
                  window_size ltac:(lia)) as Hok.
    cbv zeta in Hok, Hc. rewrite Hok in Hupd. injection Hupd as Hm Hs.
    subst m' s'. rewrite clamp_is_py_max in Hc.
    exists old. eexists _, _, _.
    split; [exact Hold|].
    unfold updated_mean, updated_variance, truediv_int.
    destruct (Z.eqb_spec window_size 0) as [E|_]; [lia|]. cbn [bind].
    split; [reflexivity|]. split; [reflexivity|].
    split; [exact Hc|].
    rewrite <- clamp_is_py_max. split; [|split].
    + intros Hneg. unfold clamp_variance. rewrite Hneg. reflexivity.
    + intros Hnan. pose proof (clamp_nonneg _ Hnan) as Hge.
      split; [exact Hge | apply sqrt_nonneg, Hge].
    + intros Hnan. rewrite (is_nan_eq _ Hnan). reflexivity.
  - unfold seed. cbv zeta. cbn [std_dev]. split; [reflexivity|].
    split; [apply np_var_not_neg|]. split; [apply sqrt_not_neg|].
    apply np_std_nonneg.
Qed.

Lemma std_dev_never_negative_witness :
  1 <= 2
  /\ len (data_window negative_window_state) = 2
  /\ (exists st_end ts,
        detect_and_visualize_anomalies 2 (of_Z 3) (map of_Z [-1; -1; -3])
        = Ok (st_end, ts)
        /\ (std_dev st_end <? zero)%f64 = false)
  /\ (exists old_data new_mean new_variance r,
        deque_first (data_window negative_window_state) = Ok old_data
        /\ updated_mean (mean negative_window_state) (of_Z (-3)) old_data 2
           = Ok new_mean
        /\ updated_variance (mean negative_window_state)
             (std_dev negative_window_state) (of_Z (-3)) old_data 2 new_mean
           = Ok new_variance
        /\ classify 2 (of_Z 3) negative_window_state (of_Z (-3))
           = Ok (mkState (data_window negative_window_state) new_mean
                   (sqrt (py_max new_variance zero)),
                 Some r)
        /\ ((new_variance <? zero)%f64 = true ->
            sqrt (py_max new_variance zero) = zero)
        /\ (is_nan new_variance = false ->
            geb (py_max new_variance zero) zero = true
            /\ geb (sqrt (py_max new_variance zero)) zero = true)
        /\ (is_nan new_variance = true ->
            is_nan (sqrt (py_max new_variance zero)) = true))
  /\ (std_dev (seed negative_window_state)
      = sqrt (np_var (items (data_window negative_window_state)))
      /\ (np_var (items (data_window negative_window_state)) <? zero)%f64
         = false
      /\ (std_dev (seed negative_window_state) <? zero)%f64 = false
      /\ (is_nan (np_var (items (data_window negative_window_state))) = false ->
          geb (np_var (items (data_window negative_window_state))) zero = true
          /\ geb (std_dev (seed negative_window_state)) zero = true)).
Proof.
  split; [lia|]. split; [reflexivity|].
  apply (std_dev_never_negative 2 (of_Z 3) (map of_Z [-1; -1; -3])
           negative_window_state (of_Z (-3))); [lia | reflexivity].
Defined.

(** ** C9: the z-score and its degenerate branch *)

(** C9: on a tick that finds the window full (of a size of at least 1),
    with a threshold that is not negative, the loop does not raise, and the
    record it emits carries the value, the z-score
    [(value - mean) / std_dev] over the updated statistics when that
    deviation differs from 0, exactly 0 when it equals 0, and the mark
    [abs(z) > threshold]; in the second case the point is not marked. *)
Theorem z_score_guards_zero_deviation
    (window_size : Z) (threshold : float) (st : state) (data_point : float) :
  1 <= window_size ->
  len (data_window st) = window_size ->
  (threshold <? zero)%f64 = false ->
  exists old_data new_mean new_std st' r s,
    deque_first (data_window st) = Ok old_data
    /\ update_mean_std (mean st) (std_dev st) data_point old_data window_size
       = Ok (new_mean, new_std)
    /\ loop_body window_size threshold st data_point
       = Ok (st', mkTick (Some r) s)
    /\ value r = data_point
    /\ is_anomaly r = (abs (zscore r) >? threshold)%f64
    /\ ((new_std !=? zero)%f64 = true ->
        zscore r = ((data_point - new_mean) / new_std)%f64
        /\ z_score data_point new_mean new_std
           = truediv (data_point - new_mean)%f64 new_std)
    /\ ((new_std =? zero)%f64 = true ->
        zscore r = zero /\ is_anomaly r = false).
Proof.
  intros Hpos Hfull Hthr.
  destruct (classify_full window_size threshold Hpos st data_point Hfull)
    as (old & m' & s' & Hold & Hupd & _ & Hc).
  cbv zeta in Hc.
  exists old, m', s'.
  unfold loop_body. rewrite Hc. cbn [bind]. cbv zeta.
  cbn [data_window mean std_dev].
  destruct (seed_due _ _); eexists _, _, _;
    (split; [exact Hold|]); (split; [exact Hupd|]);
    (split; [reflexivity|]); cbn [value zscore is_anomaly];
    (split; [reflexivity|]); (split; [reflexivity|]);
    unfold neb, z_score; (split; intros Hs).
  all: try (apply negb_true_iff in Hs; unfold neb; rewrite Hs;
            split; reflexivity).
  all: rewrite Hs; split; [reflexivity|]; unfold gtb, abs, SFabs, zero;
    exact Hthr.
Qed.

(** The state after the window [1, 1, 1, 1, 1] was seeded: mean 1,
    deviation 0. *)
Definition flat_window_state : state :=
  mkState (mkDeque 5 (map of_Z [1; 1; 1; 1; 1])) (of_Z 1) zero.

Lemma z_score_guards_zero_deviation_witness :
  1 <= 5
  /\ len (data_window flat_window_state) = 5
  /\ (of_Z 3 <? zero)%f64 = false
  /\ exists old_data new_mean new_std st' r s,
       deque_first (data_window flat_window_state) = Ok old_data
       /\ update_mean_std (mean flat_window_state) (std_dev flat_window_state)
            (of_Z 1) old_data 5
          = Ok (new_mean, new_std)
       /\ loop_body 5 (of_Z 3) flat_window_state (of_Z 1)
          = Ok (st', mkTick (Some r) s)
       /\ value r = of_Z 1
       /\ is_anomaly r = (abs (zscore r) >? of_Z 3)%f64
       /\ ((new_std !=? zero)%f64 = true ->
           zscore r = ((of_Z 1 - new_mean) / new_std)%f64
           /\ z_score (of_Z 1) new_mean new_std
              = truediv (of_Z 1 - new_mean)%f64 new_std)
       /\ ((new_std =? zero)%f64 = true ->
           zscore r = zero /\ is_anomaly r = false).
Proof.
  split; [lia|]. split; [reflexivity|]. split; [reflexivity|].
  apply (z_score_guards_zero_deviation 5 (of_Z 3) flat_window_state (of_Z 1));
    [lia | reflexivity | reflexivity].
Defined.

(** ** C10: a standard deviation that is NaN *)

Lemma update_mean_std_nan (prev_mean new_data old_data : float)
    (window_size : Z) :
  window_size <> 0 ->
  exists new_mean,
    update_mean_std prev_mean nan new_data old_data window_size
    = Ok (new_mean, nan).
Proof.
  intros Hws. rewrite update_mean_std_ok by assumption. cbv zeta.
  change (sqr nan) with nan.
  rewrite mul_nan_l, sub_nan_l, add_nan_l, div_nan_l.
  eexists. reflexivity.
Qed.

(** C10: on a tick that finds the window full (of a size of at least 1)
    and a standard deviation that is NaN, the loop does not raise: the
    updated deviation is NaN again, the test [std_dev != 0] holds for it,
    the z-score emitted is NaN, the point is not marked as an anomaly, and
    no seeding follows. *)
Theorem nan_std_dev_passes_through
    (window_size : Z) (threshold : float) (st : state) (data_point : float) :
  1 <= window_size ->
  len (data_window st) = window_size ->
  is_nan (std_dev st) = true ->
  exists st' r,
    loop_body window_size threshold st data_point
    = Ok (st', mkTick (Some r) false)
    /\ value r = data_point
    /\ is_nan (std_dev st') = true
    /\ (std_dev st' !=? zero)%f64 = true
    /\ is_nan (zscore r) = true
    /\ is_anomaly r = false.
Proof.
  intros Hpos Hfull Hnan.
  destruct (classify_full window_size threshold Hpos st data_point Hfull)
    as (old & m' & s' & _ & Hupd & _ & Hc).
  rewrite (is_nan_eq _ Hnan) in Hupd.
  destruct (update_mean_std_nan (mean st) data_point old window_size)
    as [m'' Hupd']; [lia|].
  rewrite Hupd' in Hupd. injection Hupd as -> <-.
  cbv zeta in Hc. rewrite eqb_nan_l, div_nan_r in Hc.
  change (abs nan) with nan in Hc. rewrite gtb_nan_l in Hc.
  unfold loop_body. rewrite Hc. cbn [bind]. cbv zeta.
  unfold seed_due. cbn [data_window mean std_dev].
  rewrite eqb_nan_l, andb_false_r.
  eexists _, _. split; [reflexivity|].
  cbn [value zscore is_anomaly std_dev]. repeat split.
Qed.

(** The state after the window [NaN, 1, 1, 1] was seeded: the mean and the
    deviation are NaN. *)
Definition nan_window_state : state :=
  mkState (mkDeque 4 [nan; of_Z 1; of_Z 1; of_Z 1]) nan nan.

Example nan_window_state_is_reached :
  exists ts,
    detect_and_visualize_anomalies 4 (of_Z 3) [nan; of_Z 1; of_Z 1; of_Z 1]
    = Ok (nan_window_state, ts).
Proof. eexists. vm_compute. reflexivity. Qed.

Lemma nan_std_dev_passes_through_witness :
  1 <= 4
  /\ len (data_window nan_window_state) = 4
  /\ is_nan (std_dev nan_window_state) = true
  /\ exists st' r,
       loop_body 4 (of_Z 3) nan_window_state (of_Z 1)
       = Ok (st', mkTick (Some r) false)
       /\ value r = of_Z 1
       /\ is_nan (std_dev st') = true
       /\ (std_dev st' !=? zero)%f64 = true
       /\ is_nan (zscore r) = true
       /\ is_anomaly r = false.
Proof.
  split; [lia|]. split; [reflexivity|]. split; [reflexivity|].
  apply (nan_std_dev_passes_through 4 (of_Z 3) nan_window_state (of_Z 1));
    [lia | reflexivity | reflexivity].
Defined.

(** * Further properties of the loop *)

(** ** Runs compose *)

(** Feeding [xs] and then [ys] is feeding [xs ++ ys]: the loop carries
    nothing from one value to the next but its state, and an exception
    raised on the way ends both runs alike. *)
Lemma loop_app (window_size : Z) (threshold : float)
    (xs ys : list float) (st : state) :
  loop window_size threshold st (xs ++ ys) =
  '(st1, ts1) <- loop window_size threshold st xs ;;
  '(st2, ts2) <- loop window_size threshold st1 ys ;;
  Ok (st2, ts1 ++ ts2).
Proof.
  revert st. induction xs as [|x xs IH]; intros st.
  - cbn [app loop bind].
    destruct (loop window_size threshold st ys) as [[st2 ts2]|e]; reflexivity.
  - cbn [app loop].
    destruct (loop_body window_size threshold st x) as [[st' t]|e];
      cbn [bind]; [|reflexivity].
    rewrite IH.
    destruct (loop window_size threshold st' xs) as [[st1 ts1]|e];
      cbn [bind]; [|reflexivity].
    destruct (loop window_size threshold st1 ys) as [[st2 ts2]|e];
      reflexivity.
Qed.

(** ** The threshold only marks *)

(** A tick without its mark. *)
Definition unmarked (t : tick) : option (float * float) * bool :=
  (option_map (fun r => (value r, zscore r)) (emitted t), seeded t).

Definition without_marks (r : result (state * list tick))
  : result (state * list (option (float * float) * bool)) :=
  '(st, ts) <- r ;; Ok (st, map unmarked ts).

Lemma loop_body_threshold (window_size : Z) (threshold threshold' : float)
    (st : state) (data_point : float) :
  ('(st', t) <- loop_body window_size threshold st data_point ;;
   Ok (st', unmarked t))
  = ('(st', t) <- loop_body window_size threshold' st data_point ;;
     Ok (st', unmarked t)).
Proof.
  unfold loop_body, classify.
  destruct (len (data_window st) =? window_size); cbn [bind].
  - destruct (deque_first (data_window st)) as [old|e]; cbn [bind];
      [|reflexivity].
    destruct (update_mean_std (mean st) (std_dev st) data_point old
                window_size) as [[m s]|e]; cbn [bind]; [|reflexivity].
    destruct (z_score data_point m s) as [z|e]; cbn [bind]; [|reflexivity].
    cbv zeta. cbn [data_window mean std_dev].
    destruct (seed_due _ _); reflexivity.
  - cbv zeta. destruct (seed_due _ _); reflexivity.
Qed.

Lemma loop_threshold (window_size : Z) (threshold threshold' : float)
    (data_stream : list float) (st : state) :
  without_marks (loop window_size threshold st data_stream)
  = without_marks (loop window_size threshold' st data_stream).
Proof.
  revert st. induction data_stream as [|x xs IH]; intros st; [reflexivity|].
  cbn [loop]. unfold without_marks.
  pose proof (loop_body_threshold window_size threshold threshold' st x) as Hb.
  destruct (loop_body window_size threshold st x) as [[s1 t1]|e1];
    destruct (loop_body window_size threshold' st x) as [[s2 t2]|e2];
    cbn [bind] in Hb |- *; try discriminate Hb.
  - assert (Hs : s1 = s2) by congruence.
    assert (Ht : unmarked t1 = unmarked t2) by congruence.
    subst s2. clear Hb.
    specialize (IH s1). unfold without_marks in IH.
    destruct (loop window_size threshold s1 xs) as [[s1' ts1]|e1];
      destruct (loop window_size threshold' s1 xs) as [[s2' ts2]|e2];
      cbn [bind] in IH |- *; try discriminate IH.
    + assert (Hs : s1' = s2') by congruence.
      assert (Hts : map unmarked ts1 = map unmarked ts2) by congruence.
      cbn [map]. rewrite Hs, Ht, Hts. reflexivity.
    + exact IH.
  - injection Hb as ->. reflexivity.
Qed.

(** Two runs over the same values that differ in the threshold alone raise
    the same exception or end in the same state, with the same values,
    z-scores and seedings tick by tick: the threshold decides the marks and
    nothing else. *)
Theorem threshold_only_marks (window_size : Z) (threshold threshold' : float)
    (data_stream : list float) :
  without_marks
    (detect_and_visualize_anomalies window_size threshold data_stream)
  = without_marks
      (detect_and_visualize_anomalies window_size threshold' data_stream).
Proof.
  unfold detect_and_visualize_anomalies.
  destruct (initial_state window_size) as [st0|e]; cbn [bind];
    [apply loop_threshold | reflexivity].
Qed.

(** ** What the window holds *)

(** The last [n] elements of a list, in order. *)
Definition last_values (n : nat) (l : list float) : list float :=
  skipn (length l - n) l.

Lemma last_values_length (n : nat) (l : list float) :
  length (last_values n l) = Nat.min (length l) n.
Proof. unfold last_values. rewrite length_skipn. lia. Qed.

Lemma last_values_app (n : nat) (l r : list float) :
  last_values n (last_values n l ++ r) = last_values n (l ++ r).
Proof.
  unfold last_values at 1 3.
  rewrite !length_app, last_values_length.
  unfold last_values.
  assert (Hk : skipn (length l - n) l ++ r = skipn (length l - n) (l ++ r)).
  { rewrite skipn_app.
    replace (length l - n - length l)%nat with 0%nat by lia.
    reflexivity. }
  rewrite Hk, skipn_skipn. f_equal. lia.
Qed.

Lemma deque_append_items (d : deque) (x : float) :
  0 <= maxlen d -> len d <= maxlen d ->
  items (deque_append d x)
  = last_values (Z.to_nat (maxlen d)) (items d ++ [x]).
Proof.
  unfold len, deque_append, last_values. cbv zeta. intros Hmax Hle.
  assert (Hgrown : length (items d ++ [x]) = S (length (items d)))
    by (rewrite length_app; simpl; lia).
  destruct (Z.gtb_spec (Z.of_nat (length (items d ++ [x]))) (maxlen d))
    as [Hgt|Hngt]; cbn [items].
  - replace (length (items d ++ [x]) - Z.to_nat (maxlen d))%nat with 1%nat
      by lia.
    destruct (items d ++ [x]); reflexivity.
  - replace (length (items d ++ [x]) - Z.to_nat (maxlen d))%nat with 0%nat
      by lia.
    reflexivity.
Qed.

(** What one iteration does to the window, and whether it classifies. *)
Lemma loop_body_window (window_size : Z) (threshold : float)
    (st : state) (data_point : float) :
  1 <= window_size -> well_formed window_size st ->
  exists st' t,
    loop_body window_size threshold st data_point = Ok (st', t)
    /\ well_formed window_size st'
    /\ data_window st' = deque_append (data_window st) data_point
    /\ option_map value (emitted t)
       = if len (data_window st) =? window_size
         then Some data_point else None.
Proof.
  intros Hpos Hwf.
  destruct (loop_body_well_formed window_size threshold Hpos st data_point Hwf)
    as (st' & t & Hb & Hwf' & _).
  exists st', t. split; [exact Hb|]. split; [exact Hwf'|].
  revert Hb. unfold loop_body.
  destruct (Z.eqb_spec (len (data_window st)) window_size) as [Hfull|Hne].
  - destruct (classify_full window_size threshold Hpos st data_point Hfull)
      as (old & m' & s' & _ & _ & _ & Hc).
    rewrite Hc. cbv zeta. cbn [bind data_window mean std_dev].
    destruct (seed_due _ _); intros [= <- <-]; split; reflexivity.
  - rewrite classify_filling by assumption. cbn [bind]. cbv zeta.
    destruct (seed_due _ _); intros [= <- <-]; split; reflexivity.
Qed.

Lemma loop_window (window_size : Z) (threshold : float)
    (data_stream : list float) :
  1 <= window_size ->
  forall st, well_formed window_size st ->
  exists st' ts,
    loop window_size threshold st data_stream = Ok (st', ts)
    /\ well_formed window_size st'
    /\ items (data_window st')
       = last_values (Z.to_nat window_size)
           (items (data_window st) ++ data_stream)
    /\ map (fun t => option_map value (emitted t)) ts
       = repeat None
           (Nat.min (length data_stream)
              (Z.to_nat window_size - length (items (data_window st))))
         ++ map Some
              (skipn (Z.to_nat window_size - length (items (data_window st)))
                 data_stream).
Proof.
  intros Hpos.
  induction data_stream as [|x xs IH]; intros st Hwf.
  - exists st, []. cbn [loop]. split; [reflexivity|]. split; [exact Hwf|].
    split.
    + rewrite app_nil_r. unfold last_values.
      destruct Hwf as (_ & Hlen & _). unfold len in Hlen.
      replace (length (items (data_window st)) - Z.to_nat window_size)%nat
        with 0%nat by lia.
      reflexivity.
    + rewrite skipn_nil. reflexivity.
  - destruct (loop_body_window window_size threshold st x Hpos Hwf)
      as (st1 & t & Hb & Hwf1 & Hwin & Hem).
    destruct (IH st1 Hwf1) as (st2 & ts & Hloop & Hwf2 & Hitems & Hvals).
    exists st2, (t :: ts). cbn [loop]. rewrite Hb. cbn [bind].
    rewrite Hloop. cbn [bind]. split; [reflexivity|]. split; [exact Hwf2|].
    destruct Hwf as (Hmax & Hlen & _).
    assert (Happ : items (data_window st1)
                   = last_values (Z.to_nat window_size)
                       (items (data_window st) ++ [x])).
    { rewrite Hwin, deque_append_items, Hmax by lia. reflexivity. }
    split.
    + rewrite Hitems, Happ, last_values_app, <- app_assoc. reflexivity.
    + cbn [map]. rewrite Hem, Hvals.
      assert (Hl1 : length (items (data_window st1))
                    = Nat.min (S (length (items (data_window st))))
                        (Z.to_nat window_size)).
      { rewrite Happ, last_values_length, length_app. cbn [length]. lia. }
      rewrite Hl1. unfold len in Hlen |- *.
      destruct (Z.eqb_spec (Z.of_nat (length (items (data_window st))))
                  window_size) as [Hfull|Hne].
      * replace (Z.to_nat window_size - length (items (data_window st)))%nat
          with 0%nat by lia.
        replace (Z.to_nat window_size
                 - Nat.min (S (length (items (data_window st))))
                     (Z.to_nat window_size))%nat with 0%nat by lia.
        rewrite !Nat.min_0_r. reflexivity.
      * destruct (Z.to_nat window_size - length (items (data_window st)))%nat
          as [|j] eqn:Ej; [lia|].
        replace (Z.to_nat window_size
                 - Nat.min (S (length (items (data_window st))))
                     (Z.to_nat window_size))%nat with j by lia.
        reflexivity.
Qed.

(** For a window size of at least 1, after any number of values the window
    holds the last [window_size] of them (all of them while there are
    fewer), oldest first. *)
Theorem window_holds_last_values
    (window_size : Z) (threshold : float) (data_stream : list float) :
  1 <= window_size ->
  exists st ts,
    detect_and_visualize_anomalies window_size threshold data_stream
    = Ok (st, ts)
    /\ items (data_window st)
       = last_values (Z.to_nat window_size) data_stream.
Proof.
  intros Hpos.
  destruct (initial_state_well_formed window_size Hpos)
    as (st0 & H0 & Hwf0 & Hl0).
  destruct (loop_window window_size threshold data_stream Hpos st0 Hwf0)
    as (st & ts & Hloop & _ & Hitems & _).
  exists st, ts. unfold detect_and_visualize_anomalies.
  rewrite H0. cbn [bind]. split; [exact Hloop|].
  rewrite Hitems. unfold len in Hl0.
  destruct (items (data_window st0)); [reflexivity | discriminate].
Qed.

Lemma window_holds_last_values_witness :
  1 <= 5
  /\ exists st ts,
       detect_and_visualize_anomalies 5 (of_Z 3) outlier_stream = Ok (st, ts)
       /\ items (data_window st) = last_values (Z.to_nat 5) outlier_stream.
Proof.
  split; [lia|].
  apply (window_holds_last_values 5 (of_Z 3) outlier_stream). lia.
Defined.

(** For a window size of at least 1, the first [window_size] values are
    not classified and every later one is, each record carrying the value
    it classifies: the classified points are the stream without its first
    [window_size] values, in order. *)
Theorem classified_points_are_stream_tail
    (window_size : Z) (threshold : float) (data_stream : list float) :
  1 <= window_size ->
  exists st ts,
    detect_and_visualize_anomalies window_size threshold data_stream
    = Ok (st, ts)
    /\ map (fun t => option_map value (emitted t)) ts
       = repeat None (Nat.min (length data_stream) (Z.to_nat window_size))
         ++ map Some (skipn (Z.to_nat window_size) data_stream).
Proof.
  intros Hpos.
  destruct (initial_state_well_formed window_size Hpos)
    as (st0 & H0 & Hwf0 & Hl0).
  destruct (loop_window window_size threshold data_stream Hpos st0 Hwf0)
    as (st & ts & Hloop & _ & _ & Hvals).
  exists st, ts. unfold detect_and_visualize_anomalies.
  rewrite H0. cbn [bind]. split; [exact Hloop|].
  rewrite Hvals. unfold len in Hl0.
  destruct (items (data_window st0)); [|discriminate].
  cbn [length]. rewrite Nat.sub_0_r. reflexivity.
Qed.

Lemma classified_points_are_stream_tail_witness :
  1 <= 5
  /\ exists st ts,
       detect_and_visualize_anomalies 5 (of_Z 3) outlier_stream = Ok (st, ts)
       /\ map (fun t => option_map value (emitted t)) ts
          = repeat None (Nat.min (length outlier_stream) (Z.to_nat 5))
            ++ map Some (skipn (Z.to_nat 5) outlier_stream).
Proof.
  split; [lia|].
  apply (classified_points_are_stream_tail 5 (of_Z 3) outlier_stream). lia.
Defined.

(** ** A NaN or an infinity among the values *)

(** NaN, [inf] and [-inf]. *)
Definition not_finite (x : float) : bool :=
  match x with
  | S754_nan | S754_infinity _ => true
  | _ => false
  end.

(** NaN or the infinity of sign [s]. *)
Definition nan_or_inf (s : bool) (x : float) : Prop :=
  x = nan \/ x = S754_infinity s.

Lemma not_finite_nan_or_inf (x : float) :
  not_finite x = true -> exists s, nan_or_inf s x.
Proof.
  destruct x as [s|s| |s m e]; try discriminate; intros _.
  - exists s. right. reflexivity.
  - exists false. left. reflexivity.
Qed.

Lemma add_nan_or_inf_l (s : bool) (x y : float) :
  nan_or_inf s x -> nan_or_inf s (x + y)%f64.
Proof.
  intros [->| ->]; [left; reflexivity|].
  destruct s, y as [[|]|[|]| |sy my ey]; (left; reflexivity) || (right; reflexivity).
Qed.

Lemma add_nan_or_inf_r (s : bool) (x y : float) :
  nan_or_inf s y -> nan_or_inf s (x + y)%f64.
Proof.
  intros [->| ->]; [left; apply add_nan_r|].
  destruct s, x as [[|]|[|]| |sx mx ex]; (left; reflexivity) || (right; reflexivity).
Qed.

Lemma sub_nan_or_inf_l (s : bool) (x y : float) :
  nan_or_inf s x -> nan_or_inf s (x - y)%f64.
Proof.
  intros [->| ->]; [left; reflexivity|].
  destruct s, y as [[|]|[|]| |sy my ey]; (left; reflexivity) || (right; reflexivity).
Qed.

Lemma sub_nan_or_inf_both (s : bool) (x y : float) :
  nan_or_inf s x -> nan_or_inf s y -> (x - y)%f64 = nan.
Proof.
  intros [->| ->] [->| ->]; destruct s; reflexivity.
Qed.

Lemma div_nan_or_inf (s : bool) (x : float) (n : Z) :
  1 <= n -> nan_or_inf s x -> nan_or_inf s (x / of_Z n)%f64.
Proof.
  intros Hn Hx.
  destruct (of_Z_pos_shape n Hn) as [E|[E|[E|(m & e & E)]]]; rewrite E;
    destruct Hx as [->| ->];
    try (left; reflexivity); right; destruct s; reflexivity.
Qed.

Lemma np_sum_nan_or_inf (s : bool) (a : list float) (v : float) :
  nan_or_inf s v -> In v a -> nan_or_inf s (np_sum a).
Proof.
  intros Hv Hin.
  apply (np_sum_absorbs (nan_or_inf s)
           (add_nan_or_inf_l s) (add_nan_or_inf_r s)).
  apply Exists_exists. exists v. split; assumption.
Qed.

Lemma np_sum_nan (a : list float) : In nan a -> np_sum a = nan.
Proof.
  intros Hin.
  destruct (np_sum_nan_or_inf true a nan (or_introl eq_refl) Hin) as [E|E];
    [exact E|].
  destruct (np_sum_nan_or_inf false a nan (or_introl eq_refl) Hin) as [E'|E'];
    [exact E'|].
  rewrite E in E'. discriminate E'.
Qed.

Lemma np_mean_nan_or_inf (s : bool) (a : list float) (v : float) :
  nan_or_inf s v -> In v a -> nan_or_inf s (np_mean a).
Proof.
  intros Hv Hin. unfold np_mean. apply div_nan_or_inf.
  - destruct a; [destruct Hin | cbn [length]; lia].
  - apply (np_sum_nan_or_inf s a v Hv Hin).
Qed.

(** numpy's standard deviation of values one of which is NaN or infinite is
    NaN. *)
Lemma np_std_not_finite (a : list float) (v : float) :
  not_finite v = true -> In v a -> np_std a = nan.
Proof.
  intros Hnf Hin. destruct (not_finite_nan_or_inf v Hnf) as [s Hv].
  unfold np_std, np_var. cbv zeta.
  assert (Hsum : np_sum (map (fun d => (d * d)%f64)
                           (map (fun x => (x - np_mean a)%f64) a)) = nan).
  { apply np_sum_nan.
    pose proof (in_map (fun d => (d * d)%f64) _ _
                  (in_map (fun x => (x - np_mean a)%f64) a v Hin)) as Hmap.
    cbv beta in Hmap.
    rewrite (sub_nan_or_inf_both s v (np_mean a) Hv
               (np_mean_nan_or_inf s a v Hv Hin)) in Hmap.
    exact Hmap. }
  rewrite Hsum. reflexivity.
Qed.

Lemma update_mean_std_not_finite (prev_mean prev_std new_data old_data : float)
    (window_size : Z) :
  1 <= window_size -> not_finite new_data = true ->
  exists new_mean,
    update_mean_std prev_mean prev_std new_data old_data window_size
    = Ok (new_mean, nan)
    /\ not_finite new_mean = true.
Proof.
  intros Hws Hnf. destruct (not_finite_nan_or_inf new_data Hnf) as [s Hv].
  rewrite update_mean_std_ok by lia. cbv zeta.
  set (new_mean := (prev_mean + (new_data - old_data) / of_Z window_size)%f64).
  assert (Hm : nan_or_inf s new_mean).
  { apply add_nan_or_inf_r, div_nan_or_inf; [exact Hws|].
    apply sub_nan_or_inf_l, Hv. }
  rewrite (sub_nan_or_inf_both s new_data new_mean Hv Hm).
  change (sqr nan) with nan. rewrite add_nan_r, div_nan_l.
  exists new_mean. split; [reflexivity|].
  destruct Hm as [->| ->]; reflexivity.
Qed.

Lemma deque_append_filling (d : deque) (x : float) :
  len d < maxlen d ->
  deque_append d x = mkDeque (maxlen d) (items d ++ [x]).
Proof.
  unfold len, deque_append. cbv zeta. intros Hlt.
  destruct (Z.gtb_spec (Z.of_nat (length (items d ++ [x]))) (maxlen d))
    as [Hgt|_]; [|reflexivity].
  rewrite length_app in Hgt. cbn [length] in Hgt. lia.
Qed.

(** A state in which such a value has taken hold: the deviation is NaN, or
    the window is still filling, the statistics untouched at 0, with the
    value in it. *)
Definition poisoned (window_size : Z) (st : state) : Prop :=
  maxlen (data_window st) = window_size
  /\ len (data_window st) <= window_size
  /\ (is_nan (std_dev st) = true
      \/ (len (data_window st) < window_size
          /\ existsb not_finite (items (data_window st)) = true
          /\ mean st = zero /\ std_dev st = zero)).

(** A tick that marks nothing: no classification, or one whose z-score is
    NaN and that is not an anomaly. *)
Definition silent (t : tick) : bool :=
  match emitted t with
  | Some r => is_nan (zscore r) && negb (is_anomaly r)
  | None => true
  end.

(** As long as the window has not been full, the statistics are the
    initial ones. *)
Definition unseeded_while_filling (window_size : Z) (st : state) : Prop :=
  len (data_window st) < window_size -> mean st = zero /\ std_dev st = zero.

Lemma loop_body_filling_not_finite (window_size : Z) (threshold : float)
    (st : state) (data_point : float) :
  maxlen (data_window st) = window_size ->
  len (data_window st) < window_size ->
  mean st = zero -> std_dev st = zero ->
  existsb not_finite (items (data_window st) ++ [data_point]) = true ->
  exists st' t,
    loop_body window_size threshold st data_point = Ok (st', t)
    /\ poisoned window_size st' /\ silent t = true.
Proof.
  intros Hmax Hlt Hm Hs Hin.
  unfold loop_body. rewrite classify_filling by lia. cbn [bind]. cbv zeta.
  rewrite deque_append_filling by lia. rewrite Hmax, Hm, Hs.
  assert (Hlen : len (mkDeque window_size (items (data_window st) ++ [data_point]))
                 = len (data_window st) + 1).
  { unfold len. cbn [items]. rewrite length_app. cbn [length]. lia. }
  unfold seed_due. cbn [data_window mean std_dev].
  change (zero =? zero)%f64 with true. rewrite !andb_true_r.
  destruct (Z.eqb_spec
              (len (mkDeque window_size
                      (items (data_window st) ++ [data_point])))
              window_size) as [Hfull|Hne];
    eexists _, _; (split; [reflexivity|]); (split; [|reflexivity]);
    unfold poisoned, seed; cbn [data_window mean std_dev maxlen items].
  - split; [reflexivity|]. split; [lia|]. left.
    apply existsb_exists in Hin. destruct Hin as (v & Hv & Hnf).
    rewrite (np_std_not_finite _ v Hnf Hv). reflexivity.
  - split; [reflexivity|]. split; [lia|]. right.
    split; [lia|]. split; [assumption|]. split; reflexivity.
Qed.

Lemma loop_body_full_not_finite (window_size : Z) (threshold : float)
    (st : state) (data_point : float) :
  1 <= window_size ->
  maxlen (data_window st) = window_size ->
  len (data_window st) = window_size ->
  is_nan (std_dev st) = true \/ not_finite data_point = true ->
  exists st' t,
    loop_body window_size threshold st data_point = Ok (st', t)
    /\ poisoned window_size st' /\ silent t = true.
Proof.
  intros Hpos Hmax Hfull Hnan.
  destruct (classify_full window_size threshold Hpos st data_point Hfull)
    as (old & m' & s' & _ & Hupd & _ & Hc).
  assert (Hs' : s' = nan).
  { destruct Hnan as [Hstd|Hnf].
    - rewrite (is_nan_eq _ Hstd) in Hupd.
      destruct (update_mean_std_nan (mean st) data_point old window_size)
        as [m'' Hupd']; [lia|].
      congruence.
    - destruct (update_mean_std_not_finite (mean st) (std_dev st) data_point
                  old window_size Hpos Hnf) as (m'' & Hupd' & _).
      congruence. }
  subst s'. cbv zeta in Hc. rewrite eqb_nan_l, div_nan_r in Hc.
  change (abs nan) with nan in Hc. rewrite gtb_nan_l in Hc.
  unfold loop_body. rewrite Hc. cbn [bind]. cbv zeta.
  unfold seed_due. cbn [data_window mean std_dev].
  rewrite eqb_nan_l, andb_false_r.
  eexists _, _. split; [reflexivity|]. split; [|reflexivity].
  unfold poisoned. cbn [data_window mean std_dev].
  split; [rewrite deque_append_maxlen; exact Hmax|].
  split; [rewrite deque_append_len by lia; lia|].
  left. reflexivity.
Qed.

Lemma poisoned_step (window_size : Z) (threshold : float)
    (st : state) (data_point : float) :
  1 <= window_size -> poisoned window_size st ->
  exists st' t,
    loop_body window_size threshold st data_point = Ok (st', t)
    /\ poisoned window_size st' /\ silent t = true.
Proof.
  intros Hpos (Hmax & Hle & Hcase).
  destruct (Z.eq_dec (len (data_window st)) window_size) as [Hfull|Hne].
  - apply loop_body_full_not_finite; try assumption.
    destruct Hcase as [Hstd|(Hlt & _)]; [left; exact Hstd | lia].
  - destruct Hcase as [Hstd|(Hlt & Hin & Hm & Hs)].
    + unfold loop_body. rewrite classify_filling by assumption.
      cbn [bind]. cbv zeta. unfold seed_due. cbn [data_window mean std_dev].
      rewrite (is_nan_eq _ Hstd), eqb_nan_l, andb_false_r.
      eexists _, _. split; [reflexivity|]. split; [|reflexivity].
      unfold poisoned. cbn [data_window mean std_dev].
      split; [rewrite deque_append_maxlen; exact Hmax|].
      split; [rewrite deque_append_len by lia; lia|].
      left. reflexivity.
    + apply loop_body_filling_not_finite; try assumption.
      rewrite existsb_app, Hin. reflexivity.
Qed.

Lemma poisoned_loop (window_size : Z) (threshold : float)
    (data_stream : list float) :
  1 <= window_size ->
  forall st, poisoned window_size st ->
  exists st' ts,
    loop window_size threshold st data_stream = Ok (st', ts)
    /\ poisoned window_size st'
    /\ length ts = length data_stream
    /\ forallb silent ts = true.
Proof.
  intros Hpos. induction data_stream as [|x xs IH]; intros st Hp.
  - exists st, []. split; [reflexivity|]. split; [exact Hp|].
    split; reflexivity.
  - destruct (poisoned_step window_size threshold st x Hpos Hp)
      as (st1 & t & Hb & Hp1 & Ht).
    destruct (IH st1 Hp1) as (st2 & ts & Hloop & Hp2 & Hlen & Hts).
    exists st2, (t :: ts). cbn [loop]. rewrite Hb. cbn [bind].
    rewrite Hloop. cbn [bind]. split; [reflexivity|]. split; [exact Hp2|].
    split; [cbn [length]; congruence|].
    cbn [forallb]. rewrite Ht, Hts. reflexivity.
Qed.

Lemma loop_body_unseeded (window_size : Z) (threshold : float)
    (st : state) (data_point : float) :
  1 <= window_size ->
  well_formed window_size st -> unseeded_while_filling window_size st ->
  exists st' t,
    loop_body window_size threshold st data_point = Ok (st', t)
    /\ well_formed window_size st'
    /\ unseeded_while_filling window_size st'.
Proof.
  intros Hpos Hwf Hun.
  destruct (loop_body_well_formed window_size threshold Hpos st data_point Hwf)
    as (st' & t & Hb & Hwf' & Hlen').
  exists st', t. split; [exact Hb|]. split; [exact Hwf'|].
  intros Hlt'.
  assert (Hlt : len (data_window st) < window_size) by lia.
  destruct (Hun Hlt) as [Hm Hs].
  revert Hb. unfold loop_body. rewrite classify_filling by lia.
  cbn [bind]. cbv zeta.
  destruct (seed_due _ _) eqn:Hdue; intros [= <- <-].
  - unfold seed_due in Hdue. cbn [data_window] in Hdue.
    apply andb_prop in Hdue. destruct Hdue as [Hdue _].
    apply andb_prop in Hdue. destruct Hdue as [Hdue _].
    apply Z.eqb_eq in Hdue.
    unfold seed in Hlt'. cbn [data_window] in Hlt'. lia.
  - cbn [mean std_dev]. split; assumption.
Qed.

Lemma loop_unseeded (window_size : Z) (threshold : float)
    (data_stream : list float) :
  1 <= window_size ->
  forall st,
  well_formed window_size st -> unseeded_while_filling window_size st ->
  exists st' ts,
    loop window_size threshold st data_stream = Ok (st', ts)
    /\ well_formed window_size st'
    /\ unseeded_while_filling window_size st'
    /\ length ts = length data_stream.
Proof.
  intros Hpos. induction data_stream as [|x xs IH]; intros st Hwf Hun.
  - exists st, []. split; [reflexivity|]. split; [exact Hwf|].
    split; [exact Hun | reflexivity].
  - destruct (loop_body_unseeded window_size threshold st x Hpos Hwf Hun)
      as (st1 & t & Hb & Hwf1 & Hun1).
    destruct (IH st1 Hwf1 Hun1) as (st2 & ts & Hloop & Hwf2 & Hun2 & Hlen).
    exists st2, (t :: ts). cbn [loop]. rewrite Hb. cbn [bind].
    rewrite Hloop. cbn [bind]. split; [reflexivity|]. split; [exact Hwf2|].
    split; [exact Hun2|]. cbn [length]. congruence.
Qed.

(** On a tick that finds the window full (of a size of at least 1) and
    reads a value that is NaN or infinite, whatever the statistics held, the
    loop does not raise: the update returns a deviation that is NaN and a
    mean that is NaN or infinite (line 37 subtracts the new mean from the
    value), these are the statistics held afterwards, no seeding follows,
    the z-score emitted is NaN and the point is not marked. *)
Theorem non_finite_point_gives_nan_std
    (window_size : Z) (threshold : float) (st : state) (data_point : float) :
  1 <= window_size ->
  len (data_window st) = window_size ->
  not_finite data_point = true ->
  exists old_data new_mean st' r,
    deque_first (data_window st) = Ok old_data
    /\ update_mean_std (mean st) (std_dev st) data_point old_data window_size
       = Ok (new_mean, nan)
    /\ not_finite new_mean = true
    /\ loop_body window_size threshold st data_point
       = Ok (st', mkTick (Some r) false)
    /\ mean st' = new_mean
    /\ is_nan (std_dev st') = true
    /\ value r = data_point
    /\ is_nan (zscore r) = true
    /\ is_anomaly r = false.
Proof.
  intros Hpos Hfull Hnf.
  destruct (classify_full window_size threshold Hpos st data_point Hfull)
    as (old & m' & s' & Hold & Hupd & _ & Hc).
  destruct (update_mean_std_not_finite (mean st) (std_dev st) data_point
              old window_size Hpos Hnf) as (m'' & Hupd' & Hm'').
  assert (Hm : m' = m'') by congruence.
  assert (Hs : s' = nan) by congruence.
  subst m' s'. cbv zeta in Hc. rewrite eqb_nan_l, div_nan_r in Hc.
  change (abs nan) with nan in Hc. rewrite gtb_nan_l in Hc.
  exists old, m''. unfold loop_body. rewrite Hc. cbn [bind]. cbv zeta.
  unfold seed_due. cbn [data_window mean std_dev].
  rewrite eqb_nan_l, andb_false_r.
  eexists _, _. split; [exact Hold|]. split; [exact Hupd'|].
  split; [exact Hm''|]. split; [reflexivity|].
  cbn [mean std_dev value zscore is_anomaly]. repeat split.
Qed.

Lemma non_finite_point_gives_nan_std_witness :
  1 <= 5
  /\ len (data_window flat_window_state) = 5
  /\ not_finite infinity = true
  /\ exists old_data new_mean st' r,
       deque_first (data_window flat_window_state) = Ok old_data
       /\ update_mean_std (mean flat_window_state) (std_dev flat_window_state)
            infinity old_data 5
          = Ok (new_mean, nan)
       /\ not_finite new_mean = true
       /\ loop_body 5 (of_Z 3) flat_window_state infinity
          = Ok (st', mkTick (Some r) false)
       /\ mean st' = new_mean
       /\ is_nan (std_dev st') = true
       /\ value r = infinity
       /\ is_nan (zscore r) = true
       /\ is_anomaly r = false.
Proof.
  split; [lia|]. split; [reflexivity|]. split; [reflexivity|].
  apply (non_finite_point_gives_nan_std 5 (of_Z 3) flat_window_state
           infinity); [lia | reflexivity | reflexivity].
Defined.

(** For a window size of at least 1, a NaN or an infinity anywhere in the
    stream silences the detector from there on: the run does not raise, and
    the tick of that value and every later tick either classifies nothing
    or gives a NaN z-score and no anomaly, whatever the later values are. *)
Theorem non_finite_value_silences_detection
    (window_size : Z) (threshold : float)
    (before : list float) (v : float) (after : list float) :
  1 <= window_size -> not_finite v = true ->
  exists st ts_before ts_after,
    detect_and_visualize_anomalies window_size threshold
      (before ++ v :: after)
    = Ok (st, ts_before ++ ts_after)
    /\ length ts_before = length before
    /\ length ts_after = S (length after)
    /\ forallb silent ts_after = true.
Proof.
  intros Hpos Hnf.
  destruct (initial_state_well_formed window_size Hpos)
    as (st0 & H0 & Hwf0 & Hl0).
  assert (Hun0 : unseeded_while_filling window_size st0).
  { intros _. revert H0. unfold initial_state, deque_new.
    destruct (window_size <? 0); [discriminate|].
    cbn [bind]. intros [= <-]. split; reflexivity. }
  destruct (loop_unseeded window_size threshold before Hpos st0 Hwf0 Hun0)
    as (st1 & ts1 & Hloop1 & Hwf1 & Hun1 & Hlen1).
  assert (Hv : exists st2 t,
             loop_body window_size threshold st1 v = Ok (st2, t)
             /\ poisoned window_size st2 /\ silent t = true).
  { destruct Hwf1 as (Hmax & Hle & _).
    destruct (Z.eq_dec (len (data_window st1)) window_size) as [Hfull|Hne].
    - apply loop_body_full_not_finite; try assumption. right. exact Hnf.
    - assert (Hlt : len (data_window st1) < window_size) by lia.
      destruct (Hun1 Hlt) as [Hm Hs].
      apply loop_body_filling_not_finite; try assumption.
      rewrite existsb_app. cbn [existsb]. rewrite Hnf.
      apply orb_true_iff. right. reflexivity. }
  destruct Hv as (st2 & t & Hb & Hp2 & Ht).
  destruct (poisoned_loop window_size threshold after Hpos st2 Hp2)
    as (st3 & ts3 & Hloop3 & _ & Hlen3 & Hts3).
  exists st3, ts1, (t :: ts3).
  unfold detect_and_visualize_anomalies. rewrite H0. cbn [bind].
  rewrite loop_app, Hloop1. cbn [bind loop]. rewrite Hb. cbn [bind].
  rewrite Hloop3. cbn [bind].
  split; [reflexivity|]. split; [exact Hlen1|].
  split; [cbn [length]; congruence|].
  cbn [forallb]. rewrite Ht, Hts3. reflexivity.
Qed.

Lemma non_finite_value_silences_detection_witness :
  1 <= 3 /\ not_finite infinity = true
  /\ exists st ts_before ts_after,
       detect_and_visualize_anomalies 3 (of_Z 3)
         ([of_Z 1; of_Z 2; of_Z 3; of_Z 2] ++ infinity :: [of_Z 1000; of_Z 2])
       = Ok (st, ts_before ++ ts_after)
       /\ length ts_before = length [of_Z 1; of_Z 2; of_Z 3; of_Z 2]
       /\ length ts_after = S (length [of_Z 1000; of_Z 2])
       /\ forallb silent ts_after = true.
Proof.
  split; [lia|]. split; [reflexivity|].
  apply (non_finite_value_silences_detection 3 (of_Z 3)
           [of_Z 1; of_Z 2; of_Z 3; of_Z 2] infinity [of_Z 1000; of_Z 2]);
    [lia | reflexivity].
Defined.

(** ** The first window *)

(** Eight values of 0.1 are summed by numpy as a balanced tree, without any
    rounding: their mean is 0.1 and their deviation 0.  Thirty of them,
    the default window, are summed in eight accumulators and a tail of six:
    their mean is [0.10000000000000003], that is [0x1.999999999999cp-4],
    and their deviation [2.7755575615628914e-17], that is [2 ^ -55]. *)
Example constant_windows_of_8_and_30 :
  np_mean (repeat tenth 8) = tenth
  /\ np_std (repeat tenth 8) = zero
  /\ np_mean (repeat tenth 30) = S754_finite false 7205759403792796 (-56)
  /\ np_std (repeat tenth 30) = S754_finite false 4503599627370496 (-107).
Proof. by_computation. Qed.

Lemma loop_filling (window_size : Z) (threshold : float)
    (data_stream : list float) :
  forall held,
  Z.of_nat (length held) + Z.of_nat (length data_stream) < window_size ->
  loop window_size threshold (mkState (mkDeque window_size held) zero zero)
    data_stream
  = Ok (mkState (mkDeque window_size (held ++ data_stream)) zero zero,
        repeat (mkTick None false) (length data_stream)).
Proof.
  induction data_stream as [|x xs IH]; intros held Hlt.
  - rewrite app_nil_r. reflexivity.
  - cbn [length] in Hlt. cbn [loop]. unfold loop_body.
    rewrite classify_filling by (unfold len; cbn [data_window items]; lia).
    cbn [bind]. cbv zeta. cbn [data_window mean std_dev].
    rewrite deque_append_filling by (unfold len; cbn [items maxlen]; lia).
    cbn [maxlen items]. unfold seed_due. cbn [data_window].
    replace (len (mkDeque window_size (held ++ [x])) =? window_size)
      with false.
    + cbn [andb bind]. rewrite IH.
      * cbn [bind length repeat]. rewrite <- app_assoc. reflexivity.
      * rewrite length_app. cbn [length]. lia.
    + symmetry. apply Z.eqb_neq. unfold len. cbn [items].
      rewrite length_app. cbn [length]. lia.
Qed.

Lemma loop_first_window (window_size : Z) (threshold : float)
    (first : list float) :
  1 <= window_size ->
  Z.of_nat (length first) = window_size ->
  loop window_size threshold (mkState (mkDeque window_size []) zero zero) first
  = Ok (mkState (mkDeque window_size first) (np_mean first) (np_std first),
        repeat (mkTick None false) (length first - 1) ++ [mkTick None true]).
Proof.
  intros Hpos Hlen.
  assert (Hne : first <> []) by (intros ->; cbn [length] in Hlen; lia).
  destruct (exists_last Hne) as (held & x & ->).
  rewrite length_app in Hlen |- *. cbn [length] in Hlen |- *.
  replace (length held + 1 - 1)%nat with (length held) by lia.
  rewrite loop_app, loop_filling by (cbn [length]; lia).
  cbn [bind app loop]. unfold loop_body.
  rewrite classify_filling by (unfold len; cbn [data_window items]; lia).
  cbn [bind]. cbv zeta. cbn [data_window mean std_dev].
  rewrite deque_append_filling by (unfold len; cbn [items maxlen]; lia).
  cbn [maxlen items]. unfold seed_due. cbn [data_window mean std_dev].
  replace (len (mkDeque window_size (held ++ [x])) =? window_size) with true.
  - change (zero =? zero)%f64 with true. cbn [andb bind].
    unfold seed. cbn [data_window items]. reflexivity.
  - symmetry. apply Z.eqb_eq. unfold len. cbn [items].
    rewrite length_app. cbn [length]. lia.
Qed.

(** A stream shorter than the window is read without any classification
    and without any seeding: the window holds the values and both
    statistics are still 0. *)
Theorem short_stream_is_not_classified
    (window_size : Z) (threshold : float) (data_stream : list float) :
  Z.of_nat (length data_stream) < window_size ->
  detect_and_visualize_anomalies window_size threshold data_stream
  = Ok (mkState (mkDeque window_size data_stream) zero zero,
        repeat (mkTick None false) (length data_stream)).
Proof.
  intros Hlt.
  unfold detect_and_visualize_anomalies, initial_state, deque_new.
  replace (window_size <? 0) with false by (symmetry; apply Z.ltb_ge; lia).
  cbn [bind]. apply (loop_filling window_size threshold data_stream []).
  cbn [length]. lia.
Qed.

Lemma short_stream_is_not_classified_witness :
  Z.of_nat (length [of_Z 1; of_Z 50]) < 3
  /\ detect_and_visualize_anomalies 3 (of_Z 3) [of_Z 1; of_Z 50]
     = Ok (mkState (mkDeque 3 [of_Z 1; of_Z 50]) zero zero,
           repeat (mkTick None false) (length [of_Z 1; of_Z 50])).
Proof.
  split; [reflexivity|].
  apply (short_stream_is_not_classified 3 (of_Z 3) [of_Z 1; of_Z 50]).
  reflexivity.
Defined.

(** For a window size of at least 1, the first [window_size] values are
    read without any classification, the statistics are computed once, on
    the last of them, as numpy's mean and standard deviation of the window
    they fill, and the rest of the stream is processed from that state. *)
Theorem first_window_is_seeded
    (window_size : Z) (threshold : float) (first rest : list float) :
  1 <= window_size ->
  Z.of_nat (length first) = window_size ->
  detect_and_visualize_anomalies window_size threshold (first ++ rest)
  = '(st, ts) <-
      loop window_size threshold
        (mkState (mkDeque window_size first) (np_mean first) (np_std first))
        rest ;;
    Ok (st,
        repeat (mkTick None false) (length first - 1)
        ++ mkTick None true :: ts).
Proof.
  intros Hpos Hlen.
  unfold detect_and_visualize_anomalies, initial_state, deque_new.
  replace (window_size <? 0) with false by (symmetry; apply Z.ltb_ge; lia).
  cbn [bind]. rewrite loop_app, loop_first_window by assumption.
  cbn [bind].
  destruct (loop window_size threshold _ rest) as [[st ts]|e];
    cbn [bind]; [|reflexivity].
  rewrite <- app_assoc. reflexivity.
Qed.

Lemma first_window_is_seeded_witness :
  1 <= 3 /\ Z.of_nat (length [of_Z 1; of_Z 2; of_Z 6]) = 3
  /\ detect_and_visualize_anomalies 3 (of_Z 3)
       ([of_Z 1; of_Z 2; of_Z 6] ++ [of_Z 4])
     = '(st, ts) <-
         loop 3 (of_Z 3)
           (mkState (mkDeque 3 [of_Z 1; of_Z 2; of_Z 6])
              (np_mean [of_Z 1; of_Z 2; of_Z 6])
              (np_std [of_Z 1; of_Z 2; of_Z 6]))
           [of_Z 4] ;;
       Ok (st,
           repeat (mkTick None false) (length [of_Z 1; of_Z 2; of_Z 6] - 1)
           ++ mkTick None true :: ts).
Proof.
  split; [lia|]. split; [reflexivity|].
  apply (first_window_is_seeded 3 (of_Z 3) [of_Z 1; of_Z 2; of_Z 6] [of_Z 4]);
    [lia | reflexivity].
Defined.

(** ** The threshold *)

(** Whether a tick marked its point as an anomaly. *)
Definition flagged (t : tick) : bool :=
  match emitted t with
  | Some r => is_anomaly r
  | None => false
  end.

(** Line 79: the mark of a classified point is [abs(z_score) > threshold]. *)
Definition mark_follows_score (threshold : float) (t : tick) : bool :=
  match emitted t with
  | Some r => Bool.eqb (is_anomaly r) (abs (zscore r) >? threshold)%f64
  | None => true
  end.

Lemma leb_ltb_trans (a b c : float) :
  leb a b = true -> ltb b c = true -> ltb a c = true.
Proof.
  unfold leb, ltb, SFleb, SFltb.
  destruct a as [[|]|[|]| |[|] ma ea], b as [[|]|[|]| |[|] mb eb],
           c as [[|]|[|]| |[|] mc ec];
    cbn [SFcompare]; try reflexivity; try discriminate;
    destruct (Z.compare_spec ea eb); destruct (Z.compare_spec eb ec);
    destruct (Z.compare_spec ea ec); try lia; cbn [CompOpp];
    try reflexivity; try discriminate; subst;
    rewrite ?Pos.compare_cont_spec; cbn [Pos.switch_Eq CompOpp];
    destruct (Pos.compare_spec ma mb); destruct (Pos.compare_spec mb mc);
    destruct (Pos.compare_spec ma mc); try lia; cbn [CompOpp];
    try reflexivity; try discriminate.
Qed.

Lemma negative_below_abs (threshold z : float) :
  (threshold <? zero)%f64 = true -> is_nan z = false ->
  (abs z >? threshold)%f64 = true.
Proof.
  destruct threshold as [[|]|[|]| |[|] mt et], z as [[|]|[|]| |[|] mz ez];
    try discriminate; reflexivity.
Qed.

Lemma loop_body_mark (window_size : Z) (threshold : float)
    (st st' : state) (data_point : float) (t : tick) :
  loop_body window_size threshold st data_point = Ok (st', t) ->
  mark_follows_score threshold t = true.
Proof.
  unfold loop_body, classify.
  destruct (len (data_window st) =? window_size).
  - destruct (deque_first (data_window st)) as [old|e];
      cbn [bind]; [|discriminate].
    destruct (update_mean_std (mean st) (std_dev st) data_point old
                window_size) as [[m s]|e]; cbn [bind]; [|discriminate].
    destruct (z_score data_point m s) as [z|e]; cbn [bind]; [|discriminate].
    cbv zeta. destruct (seed_due _ _); intros [= <- <-];
      unfold mark_follows_score; cbn [emitted is_anomaly zscore];
      apply eqb_reflx.
  - cbn [bind]. cbv zeta. destruct (seed_due _ _); intros [= <- <-];
      reflexivity.
Qed.

Lemma loop_mark (window_size : Z) (threshold : float)
    (data_stream : list float) :
  forall st st' ts,
  loop window_size threshold st data_stream = Ok (st', ts) ->
  forallb (mark_follows_score threshold) ts = true.
Proof.
  induction data_stream as [|x xs IH]; intros st st' ts.
  - cbn [loop]. intros [= <- <-]. reflexivity.
  - cbn [loop].
    destruct (loop_body window_size threshold st x) as [[st1 t]|e] eqn:Hb;
      cbn [bind]; [|discriminate].
    destruct (loop window_size threshold st1 xs) as [[st2 ts2]|e] eqn:Hl;
      cbn [bind]; [|discriminate].
    intros [= <- <-]. cbn [forallb].
    rewrite (loop_body_mark _ _ _ _ _ _ Hb), (IH _ _ _ Hl). reflexivity.
Qed.

Lemma detect_mark (window_size : Z) (threshold : float)
    (data_stream : list float) (st : state) (ts : list tick) :
  detect_and_visualize_anomalies window_size threshold data_stream
  = Ok (st, ts) ->
  forallb (mark_follows_score threshold) ts = true.
Proof.
  unfold detect_and_visualize_anomalies.
  destruct (initial_state window_size) as [st0|e]; cbn [bind]; [|discriminate].
  apply loop_mark.
Qed.

Lemma detect_unmarked (window_size : Z) (threshold threshold' : float)
    (data_stream : list float) (st st' : state) (ts ts' : list tick) :
  detect_and_visualize_anomalies window_size threshold data_stream
  = Ok (st, ts) ->
  detect_and_visualize_anomalies window_size threshold' data_stream
  = Ok (st', ts') ->
  map unmarked ts = map unmarked ts'.
Proof.
  unfold detect_and_visualize_anomalies.
  destruct (initial_state window_size) as [st0|e]; cbn [bind]; [|discriminate].
  intros H H'.
  pose proof (loop_threshold window_size threshold threshold' data_stream st0)
    as Heq.
  unfold without_marks in Heq. rewrite H, H' in Heq. cbn [bind] in Heq.
  congruence.
Qed.

Lemma marks_shrink
    (window_size : Z) (threshold threshold' : float)
    (data_stream : list float) (st st' : state) (ts ts' : list tick) :
  leb threshold threshold' = true ->
  detect_and_visualize_anomalies window_size threshold data_stream
  = Ok (st, ts) ->
  detect_and_visualize_anomalies window_size threshold' data_stream
  = Ok (st', ts') ->
  forall i t t',
    nth_error ts i = Some t -> nth_error ts' i = Some t' ->
    flagged t' = true -> flagged t = true.
Proof.
  intros Hle H H' i t t' Hi Hi' Hflag.
  pose proof (detect_unmarked _ _ _ _ _ _ _ _ H H') as Hum.
  assert (Ht : unmarked t = unmarked t').
  { apply (map_nth_error unmarked) in Hi, Hi'. rewrite Hum in Hi. congruence. }
  pose proof (detect_mark _ _ _ _ _ H) as Hm.
  pose proof (detect_mark _ _ _ _ _ H') as Hm'.
  rewrite forallb_forall in Hm, Hm'.
  specialize (Hm t (nth_error_In _ _ Hi)).
  specialize (Hm' t' (nth_error_In _ _ Hi')).
  unfold unmarked in Ht. unfold flagged in *. unfold mark_follows_score in *.
  destruct (emitted t') as [r'|]; [|discriminate].
  destruct (emitted t) as [r|]; [|discriminate].
  cbn [option_map] in Ht.
  assert (Hz : zscore r = zscore r') by congruence.
  apply eqb_prop in Hm, Hm'. rewrite Hm, Hz.
  rewrite Hm' in Hflag. unfold gtb in *.
  exact (leb_ltb_trans _ _ _ Hle Hflag).
Qed.

(** Raising the threshold never adds an anomaly: for a window size of at
    least 1, the runs over one stream with a threshold and with a higher one
    both return, tick for tick, and every point that the run with the higher
    threshold marks is marked by the run with the lower one too. *)
Theorem higher_threshold_marks_fewer
    (window_size : Z) (threshold threshold' : float)
    (data_stream : list float) :
  1 <= window_size ->
  leb threshold threshold' = true ->
  exists st ts st' ts',
    detect_and_visualize_anomalies window_size threshold data_stream
    = Ok (st, ts)
    /\ detect_and_visualize_anomalies window_size threshold' data_stream
       = Ok (st', ts')
    /\ length ts = length ts'
    /\ forall i t t',
         nth_error ts i = Some t -> nth_error ts' i = Some t' ->
         flagged t' = true -> flagged t = true.
Proof.
  intros Hpos Hle.
  destruct (detect_well_formed window_size threshold Hpos data_stream)
    as (st & ts & H & _ & Hlen & _).
  destruct (detect_well_formed window_size threshold' Hpos data_stream)
    as (st' & ts' & H' & _ & Hlen' & _).
  exists st, ts, st', ts'. split; [exact H|]. split; [exact H'|].
  split; [congruence|].
  exact (marks_shrink _ _ _ _ _ _ _ _ Hle H H').
Qed.

Lemma higher_threshold_marks_fewer_witness :
  1 <= 5 /\ leb (of_Z 2) (of_Z 3) = true
  /\ exists st ts st' ts',
       detect_and_visualize_anomalies 5 (of_Z 2) outlier_stream = Ok (st, ts)
       /\ detect_and_visualize_anomalies 5 (of_Z 3) outlier_stream
          = Ok (st', ts')
       /\ length ts = length ts'
       /\ forall i t t',
            nth_error ts i = Some t -> nth_error ts' i = Some t' ->
            flagged t' = true -> flagged t = true.
Proof.
  split; [lia|]. split; [reflexivity|].
  apply (higher_threshold_marks_fewer 5 (of_Z 2) (of_Z 3) outlier_stream);
    [lia | reflexivity].
Defined.

(** The threshold is not validated.  With a negative one, for a window size
    of at least 1, the run returns and every classified point is marked as
    an anomaly unless its z-score is NaN, the points equal to the mean
    included. *)
Theorem negative_threshold_marks_every_score
    (window_size : Z) (threshold : float) (data_stream : list float) :
  1 <= window_size ->
  (threshold <? zero)%f64 = true ->
  exists st ts,
    detect_and_visualize_anomalies window_size threshold data_stream
    = Ok (st, ts)
    /\ forall t r,
         In t ts -> emitted t = Some r ->
         is_anomaly r = negb (is_nan (zscore r)).
Proof.
  intros Hpos Hneg.
  destruct (detect_well_formed window_size threshold Hpos data_stream)
    as (st & ts & H & _).
  exists st, ts. split; [exact H|]. intros t r Hin Hr.
  pose proof (detect_mark _ _ _ _ _ H) as Hm.
  rewrite forallb_forall in Hm. specialize (Hm t Hin).
  unfold mark_follows_score in Hm. rewrite Hr in Hm.
  apply eqb_prop in Hm. rewrite Hm.
  destruct (is_nan (zscore r)) eqn:Hz.
  - rewrite (is_nan_eq _ Hz). change (abs nan) with nan.
    apply gtb_nan_l.
  - apply negative_below_abs; assumption.
Qed.

Lemma negative_threshold_marks_every_score_witness :
  1 <= 5 /\ (of_Z (-1) <? zero)%f64 = true
  /\ exists st ts,
       detect_and_visualize_anomalies 5 (of_Z (-1)) outlier_stream
       = Ok (st, ts)
       /\ forall t r,
            In t ts -> emitted t = Some r ->
            is_anomaly r = negb (is_nan (zscore r)).
Proof.
  split; [lia|]. split; [reflexivity|].
  apply (negative_threshold_marks_every_score 5 (of_Z (-1)) outlier_stream);
    [lia | reflexivity].
Defined.
